(** * contextual-rag-app: loader, retriever and answer chains

    A shallow embedding of [loader.py], [retriever.py], [generator.py] and of
    the index-loading guard of [app.py].

    Python values are modelled as follows.
    - [str] is [string]; a literal holds the UTF-8 bytes of the source text.
    - A [dict] with string keys is a [gmap string _].
    - A raised exception is the [Raise] case of [result]; it propagates
      through [bind] exactly as it unwinds a Python call stack that has no
      [try]/[except] (there is none in the four modules).
    - The services the repository calls but does not implement (the PDF
      loader, the text splitter, the chat model, the structured-output model,
      the similarity search, the UUID generator) are section variables. *)

From Stdlib Require Import Ascii String.
From stdpp Require Import gmap strings pretty list fin_maps.

Open Scope string_scope.
Open Scope list_scope.

(** ** Exceptions and results *)

Inductive exn : Type :=
  | KeyError (key : string)
  | TypeError
  | ValueError
  | CollectionNotFound (name : string)
  | NotADirectoryError
  | ServiceError (service : string)
  | ValidationError.

Inductive result (A : Type) : Type :=
  | Ok (a : A)
  | Raise (e : exn).

Arguments Ok {A} a.
Arguments Raise {A} e.

Definition is_Ok {A} (r : result A) : Prop := ∃ a, r = Ok a.
Definition is_Raise {A} (r : result A) : Prop := ∃ e, r = Raise e.

Definition rbind {A B} (r : result A) (k : A → result B) : result B :=
  match r with
  | Ok a => k a
  | Raise e => Raise e
  end.

(** ** Strings *)

Definition LF : ascii := ascii_of_nat 10.

(** The separator written ["\n\n"] in the source. *)
Definition sep2 : string := String LF (String LF "").

(** [sep.join(parts)] *)
Definition join (sep : string) (parts : list string) : string :=
  String.concat sep parts.

(** [str.strip()] on UTF-8 text: the code points for which [str.isspace]
    holds are U+0009..U+000D, U+001C..U+0020, U+0085, U+00A0, U+1680,
    U+2000..U+200A, U+2028, U+2029, U+202F, U+205F and U+3000. *)
Definition is_ws1 (a : ascii) : bool :=
  let n := nat_of_ascii a in
  (((9 <=? n) && (n <=? 13)) || ((28 <=? n) && (n <=? 32)))%nat.

Definition is_ws2 (a b : ascii) : bool :=
  ((nat_of_ascii a =? 194) && ((nat_of_ascii b =? 133) || (nat_of_ascii b =? 160)))%nat.

Definition is_ws3 (a b c : ascii) : bool :=
  let x := nat_of_ascii a in
  let y := nat_of_ascii b in
  let z := nat_of_ascii c in
  (((x =? 225) && (y =? 154) && (z =? 128))
   || ((x =? 226) && (y =? 128)
       && (((128 <=? z) && (z <=? 138)) || (z =? 168) || (z =? 169) || (z =? 175)))
   || ((x =? 226) && (y =? 129) && (z =? 159))
   || ((x =? 227) && (y =? 128) && (z =? 128)))%nat.

Fixpoint lstrip (s : string) : string :=
  match s with
  | "" => ""
  | String a r1 =>
      if is_ws1 a then lstrip r1 else
      match r1 with
      | "" => s
      | String b r2 =>
          if is_ws2 a b then lstrip r2 else
          match r2 with
          | "" => s
          | String c r3 => if is_ws3 a b c then lstrip r3 else s
          end
      end
  end.

(** The same scan on the reversed text, where the bytes of a code point come
    last byte first. *)
Fixpoint lstrip_rev (s : string) : string :=
  match s with
  | "" => ""
  | String a r1 =>
      if is_ws1 a then lstrip_rev r1 else
      match r1 with
      | "" => s
      | String b r2 =>
          if is_ws2 b a then lstrip_rev r2 else
          match r2 with
          | "" => s
          | String c r3 => if is_ws3 c b a then lstrip_rev r3 else s
          end
      end
  end.

Definition rstrip (s : string) : string := String.rev (lstrip_rev (String.rev s)).

Definition strip (s : string) : string := rstrip (lstrip s).

(** [str(v)] for the values a metadata dict holds. *)
Inductive pyval : Type :=
  | PyStr (s : string)
  | PyInt (z : Z).

Global Instance pyval_eq_dec : EqDecision pyval.
Proof. solve_decision. Defined.

Definition py_str (v : pyval) : string :=
  match v with
  | PyStr s => s
  | PyInt z => pretty z
  end.

(** [str(m.get(k))]: a missing key gives [None], printed as ["None"]. *)
Definition py_str_opt (o : option pyval) : string :=
  match o with
  | Some v => py_str v
  | None => "None"
  end.

(** ** [pathlib.Path(p).name] on a POSIX path

    The path is cut at every ["/"]; empty components and ["."] components
    are dropped; [name] is the last remaining component, or [""] when none
    remains (the empty path, ["."], or a bare root). *)

Fixpoint split_slash_go (cur : string) (s : string) : list string :=
  match s with
  | "" => [String.rev cur]
  | String c r =>
      if decide (c = "/"%char) then String.rev cur :: split_slash_go "" r
      else split_slash_go (String c cur) r
  end.

Definition split_slash (s : string) : list string := split_slash_go "" s.

Definition keep_part (p : string) : bool :=
  negb (bool_decide (p = "")) && negb (bool_decide (p = ".")).

Definition path_parts (s : string) : list string :=
  List.filter keep_part (split_slash s).

Definition path_name (s : string) : string :=
  List.last (path_parts s) "".

(** [Path(v).name]: [Path] accepts only [str] (or path-like) arguments. *)
Definition Path_name (v : pyval) : result string :=
  match v with
  | PyStr s => Ok (path_name s)
  | PyInt _ => Raise TypeError
  end.

(** ** Documents *)

Record Document : Type := mkDocument {
  page_content : string;
  metadata : gmap string pyval
}.

(** * loader.py: contextual chunks *)

Module Loader.

Definition CHUNK_SIZE : Z := 3500.
Definition CHUNK_OVERLAP : Z := 0.

(** [meta.get(key, default)] *)
Definition get {V} (m : gmap string V) (key : string) (dflt : V) : V :=
  default dflt (m !! key).

(** The text of [chunk_process_prompt] around its two placeholders. *)
Definition prompt_before_paper : string :=
"
    You are an AI assistant specializing in research/document analysis.
    Your task is to provide brief, relevant context for a chunk of text
    based on the full document.

    Here is the full document:
    <paper>
    ".

Definition prompt_before_chunk : string :=
"
    </paper>

    Here is the chunk:
    <chunk>
    ".

Definition prompt_after_chunk : string :=
"
    </chunk>

    In 2–3 sentences, explain:
    - Where this chunk fits conceptually in the document (e.g., intro, methods, results, summary)
    - The main topic or idea of this chunk
    - How it relates to the overall document

    Keep it concise, helpful, and neutral in tone.

    Context:
    ".

(** [ChatPromptTemplate.from_template(chunk_process_prompt)] applied to
    [{"paper": document, "chunk": chunk}]. *)
Definition chunk_process_prompt (paper chunk : string) : string :=
  prompt_before_paper +:+ paper +:+ prompt_before_chunk +:+ chunk
  +:+ prompt_after_chunk.

(** The metadata dict literal of [create_contextual_chunks]. *)
Definition chunk_metadata (id : string) (page source : pyval) (title : string)
    : gmap string pyval :=
  <["title" := PyStr title]>
    (<["source" := source]>
       (<["page" := page]> {["id" := PyStr id]})).

(** Computations that draw UUIDs: the state counts the draws made so far. *)
Definition M (A : Type) : Type := nat → result (A * nat).

Definition ret {A} (a : A) : M A := λ n, Ok (a, n).

Definition bind {A B} (m : M A) (k : A → M B) : M B :=
  λ n, match m n with
       | Ok (a, n') => k a n'
       | Raise e => Raise e
       end.

Definition lift {A} (r : result A) : M A :=
  λ n, match r with
       | Ok a => Ok (a, n)
       | Raise e => Raise e
       end.

#[export] Instance M_ret : MRet M := @ret.
#[export] Instance M_bind : MBind M := λ A B k m, bind m k.

Section services.

(** [PyMuPDFLoader(file_path).load()] *)
Variable load_pdf : string → result (list Document).

(** [RecursiveCharacterTextSplitter(chunk_size, chunk_overlap).split_documents] *)
Variable split_documents : Z → Z → list Document → result (list Document).

(** [ChatOpenAI(...)] followed by [StrOutputParser()]: the text of the
    model's reply to a prompt, or the exception the call ends with. *)
Variable context_llm : string → result string.

(** [str(uuid.uuid4())] at the n-th draw. *)
Variable uuid4 : nat → string.

Definition fresh_uuid : M string := λ n, Ok (uuid4 n, S n).

Definition generate_chunk_context (document chunk : string) : result string :=
  rbind (context_llm (chunk_process_prompt document chunk))
        (λ context, Ok (strip context)).

(** The body of the [for chunk in doc_chunks] loop. *)
Definition enrich_chunk (file_path original_doc_text : string)
    (chunk : Document) : M Document :=
  let chunk_content := page_content chunk in
  let meta := metadata chunk in
  id ← fresh_uuid;
  title ← lift (Path_name (get meta "source" (PyStr file_path)));
  context ← lift (generate_chunk_context original_doc_text chunk_content);
  ret (mkDocument (context +:+ sep2 +:+ chunk_content)
         (chunk_metadata id (get meta "page" (PyInt 0))
            (get meta "source" (PyStr file_path)) title)).

(** The loop, with [contextual_chunks] as it stands on entry. *)
Fixpoint for_chunks (file_path original_doc_text : string)
    (doc_chunks contextual_chunks : list Document) : M (list Document) :=
  match doc_chunks with
  | [] => ret contextual_chunks
  | chunk :: rest =>
      d ← enrich_chunk file_path original_doc_text chunk;
      for_chunks file_path original_doc_text rest (contextual_chunks ++ [d])
  end.

Definition create_contextual_chunks (file_path : string)
    (chunk_size chunk_overlap : Z) : M (list Document) :=
  doc_pages ← lift (load_pdf file_path);
  let original_doc_text := join sep2 (page_content <$> doc_pages) in
  doc_chunks ← lift (split_documents chunk_size chunk_overlap doc_pages);
  for_chunks file_path original_doc_text doc_chunks [].

(** The first loop of [build_vectorstore_from_pdfs], which gathers the
    chunks of every file into [all_docs] before anything is embedded. *)
Fixpoint for_file_paths (file_paths : list string)
    (all_docs : list Document) : M (list Document) :=
  match file_paths with
  | [] => ret all_docs
  | fp :: rest =>
      contextual_docs ← create_contextual_chunks fp CHUNK_SIZE CHUNK_OVERLAP;
      for_file_paths rest (all_docs ++ contextual_docs)
  end.

End services.

(** The ["id"] entry of a chunk's metadata. *)
Definition chunk_id (d : Document) : option pyval := metadata d !! "id".

End Loader.

(** * The persisted collection store ([load_vectorstore], [app.py]) *)

Module Index.

(** A persist directory: the names [Path.iterdir] lists, and the collections
    its database holds, each with the documents added to it. *)
Record persist_dir : Type := mkDir {
  entries : gset string;
  collections : gmap string (list Document)
}.

Definition empty_dir : persist_dir := mkDir ∅ ∅.

(** What is at a path of the disk: a regular file or a directory. *)
Inductive node : Type :=
  | File
  | Dir (d : persist_dir).

(** The disk, by path; an absent path does not exist. *)
Abbreviation fs := (gmap string node).

(** The handle a [Chroma] object is. *)
Record Chroma : Type := mkChroma {
  persist_directory : string;
  collection_name : string
}.

Definition VECTOR_DB_DIR : string := "./my_context_db".

Definition EMBEDDING_MODEL : string := "text-embedding-3-small".

(** The directory at a path, when there is one. *)
Definition dir_at (disk : fs) (path : string) : option persist_dir :=
  match disk !! path with
  | Some (Dir d) => Some d
  | _ => None
  end.

(** The documents of a collection on disk, when the collection exists. *)
Definition stored (disk : fs) (path name : string) : option (list Document) :=
  d ← dir_at disk path; collections d !! name.

Section services.

(** The embedding client. *)
Variable Embeddings : Type.

(** [OpenAIEmbeddings(model=...)]: the client, or the exception its
    constructor raises, as it does when no API key is configured. *)
Variable OpenAIEmbeddings : string → result Embeddings.

(** What the [Chroma] constructor does when the persist path is a regular
    file; nothing in the repository says. *)
Variable Chroma_on_file : fs → string → string → result (Chroma * fs).

Definition get_embedding_model : result Embeddings :=
  OpenAIEmbeddings EMBEDDING_MODEL.

(** Modelled from the spec: the persistent collection store, addressed by a
    persist path and a collection name, with its two ways of opening a
    collection, create-if-absent and open-existing with an explicit not
    found. The repository does not implement the store; it reaches it through
    the constructor [Chroma(persist_directory=..., collection_name=...,
    embedding_function=...)] of [langchain_chroma], whose argument
    [create_collection_if_not_exists] selects the way and defaults to [True].
    A persistent client is opened on the directory, which is made with its
    database file when absent, and the collection is fetched or, under
    create-if-absent, created empty. *)
Definition Chroma_init (create_collection_if_not_exists : bool) (disk : fs)
    (path name : string) (embedding_function : Embeddings)
    : result (Chroma * fs) :=
  match disk !! path with
  | Some File => Chroma_on_file disk path name
  | _ =>
      let d := default empty_dir (dir_at disk path) in
      let opened := {[ "chroma.sqlite3" ]} ∪ entries d in
      match collections d !! name with
      | Some _ =>
          Ok (mkChroma path name,
              <[path := Dir (mkDir opened (collections d))]> disk)
      | None =>
          if create_collection_if_not_exists
          then Ok (mkChroma path name,
                   <[path := Dir (mkDir opened (<[name := []]> (collections d)))]>
                     disk)
          else Raise (CollectionNotFound name)
      end
  end.

(** [load_vectorstore]: the embedding model is made first; the constructor
    is then called with the three arguments above and nothing else, so
    [create_collection_if_not_exists] keeps its default. *)
Definition load_vectorstore (disk : fs) (persist_directory : string)
    : result (Chroma * fs) :=
  rbind get_embedding_model (λ embedding_model,
    Chroma_init true disk persist_directory "my_context_db" embedding_model).

(** [Path(VECTOR_DB_DIR).exists() and any(Path(VECTOR_DB_DIR).iterdir())]:
    a regular file exists, and cannot be listed. *)
Definition vectorstore_available (disk : fs) : result bool :=
  match disk !! VECTOR_DB_DIR with
  | None => Ok false
  | Some File => Raise NotADirectoryError
  | Some (Dir d) => Ok (negb (bool_decide (entries d = ∅)))
  end.

(** The [vectorstore] variable of [app.py] after the guard, [None] when the
    guard fails. *)
Definition app_vectorstore (disk : fs) : result (option Chroma * fs) :=
  rbind (vectorstore_available disk) (λ available,
    if available : bool
    then rbind (load_vectorstore disk VECTOR_DB_DIR)
               (λ '(vs, disk'), Ok (Some vs, disk'))
    else Ok (None, disk)).

End services.

End Index.

(** * retriever.py *)

Module Retriever.

Import Index.

Definition RETRIEVER_K : Z := 5.

Record VectorStoreRetriever : Type := mkRetriever {
  vectorstore : Chroma;
  search_type : string;
  search_kwargs : gmap string Z
}.

Definition allowed_search_types : list string :=
  ["similarity"; "similarity_score_threshold"; "mmr"].

(** [vectorstore.as_retriever(search_type=..., search_kwargs=...)] of
    [langchain_core]; not part of the repository. The retriever's validator
    looks at [search_type] only (and, for the threshold type, at a
    [score_threshold] entry); it never looks at ["k"]. *)
Definition as_retriever (vs : Chroma) (search_type : string)
    (search_kwargs : gmap string Z) : result VectorStoreRetriever :=
  if bool_decide (search_type ∈ allowed_search_types)
  then if bool_decide (search_type = "similarity_score_threshold")
            && bool_decide (search_kwargs !! "score_threshold" = None)
       then Raise ValueError
       else Ok (mkRetriever vs search_type search_kwargs)
  else Raise ValueError.

Definition get_similarity_retriever (vs : Chroma) (k : Z)
    : result VectorStoreRetriever :=
  as_retriever vs "similarity" {[ "k" := k ]}.

Section index.

(** [vectorstore.similarity_search(query, k=k)]: the index query, scores
    stripped. *)
Variable similarity_search : Chroma → string → Z → result (list Document).

(** The searches behind the two other search types. *)
Variable other_search : VectorStoreRetriever → string → result (list Document).

(** [retriever.invoke(query)]: for the similarity type,
    [similarity_search(query, **search_kwargs)], whose [k] defaults to 4. *)
Definition invoke (r : VectorStoreRetriever) (query : string)
    : result (list Document) :=
  if bool_decide (search_type r = "similarity")
  then similarity_search (vectorstore r) query (default 4%Z (search_kwargs r !! "k"))
  else other_search r query.

End index.

End Retriever.

(** * generator.py: the three answer chains *)

Module Generator.

Record Citation : Type := mkCitation {
  id : string;
  source : string;
  title : string;
  page : Z;
  quotes : string
}.

Record QuotedCitations : Type := mkQuotedCitations {
  citations : list Citation
}.

(** What a key of a chain's state dict holds. *)
Inductive value : Type :=
  | VStr (s : string)
  | VDocs (docs : list Document)
  | VCited (c : QuotedCitations).

(** [RAG_PROMPT.format(question=..., context=...)] *)
Definition rag_prompt_template (question context : string) : string :=
"You are an assistant who is an expert in question-answering tasks.
Answer the following question using only the retrieved context.
If the answer is not in the context, say that you don't know.
Keep the answer detailed and well formatted.

Question:
" +:+ question +:+ "

Context:
" +:+ context +:+ "

Answer:
".

(** [CITATIONS_PROMPT.format(question=..., context=..., answer=...)] *)
Definition cite_prompt_template (question context answer : string) : string :=
"You are an assistant who is an expert in analyzing answers to questions
and finding referenced citations from context articles.

Given the question, the context articles, and the generated answer,
analyze the answer and quote citations from the context articles
that justify the answer.

Question:
" +:+ question +:+ "

Context Articles:
" +:+ context +:+ "

Answer:
" +:+ answer +:+ "
".

Definition format_docs (docs : list Document) : string :=
  join sep2 (page_content <$> docs).

(** The f-string of [format_docs_with_metadata] for one document. *)
Definition format_doc_with_metadata (doc : Document) : string :=
  let m := metadata doc in
  "Context Article ID: " +:+ py_str_opt (m !! "id") +:+ "
Context Article Source: " +:+ py_str_opt (m !! "source") +:+ "
Context Article Title: " +:+ py_str_opt (m !! "title") +:+ "
Context Article Page: " +:+ py_str_opt (m !! "page") +:+ "

Content:
" +:+ page_content doc +:+ "
".

Definition docs_separator : string := "

---

".

Definition format_docs_with_metadata (docs : list Document) : string :=
  join docs_separator (format_doc_with_metadata <$> docs).

(** ** Chain runs

    A run yields the calls made to the outside services, in order, and the
    value it returns or the exception it ends with. *)

Inductive call : Type :=
  | Retrieve (query : string)
  | Generate (prompt : string)
  | Extract (prompt : string).

Definition G (A : Type) : Type := (list call * result A)%type.

Definition gret {A} (a : A) : G A := ([], Ok a).

Definition graise {A} (e : exn) : G A := ([], Raise e).

Definition gbind {A B} (m : G A) (k : A → G B) : G B :=
  match m with
  | (log, Ok a) => let '(log', r) := k a in (log ++ log', r)
  | (log, Raise e) => (log, Raise e)
  end.

#[export] Instance G_ret : MRet G := @gret.
#[export] Instance G_bind : MBind G := λ A B k m, gbind m k.
#[export] Instance G_fmap : FMap G := λ A B f m, gbind m (λ a, gret (f a)).

(** [itemgetter(key)] on a state dict *)
Definition itemgetter (key : string) (d : gmap string value) : G value :=
  match d !! key with
  | Some v => gret v
  | None => graise (KeyError key)
  end.

(** The list of documents a formatter iterates over. *)
Definition as_docs (v : value) : G (list Document) :=
  match v with
  | VDocs docs => gret docs
  | _ => graise TypeError
  end.

(** The text that fills a prompt slot. In the states the chains below build,
    the slots read are always [str]. *)
Definition as_str (v : value) : G string :=
  match v with
  | VStr s => gret s
  | _ => graise TypeError
  end.

(** [RunnablePassthrough.assign(key=chain)]: the input dict with [key] set
    to what [chain] returns on it. *)
Definition assign (key : string) (chain : gmap string value → G value)
    (d : gmap string value) : G (gmap string value) :=
  v ← chain d; mret (<[key := v]> d).

Section services.

(** [retriever.invoke(question)] *)
Variable retriever : string → result (list Document).

(** [llm | StrOutputParser()]: the text of the model's reply. *)
Variable llm : string → result string.

(** [llm.with_structured_output(QuotedCitations)]: a validated record, or
    the exception raised when the reply does not fit the schema. *)
Variable structured_llm : string → result QuotedCitations.

Definition invoke_retriever (question : string) : G (list Document) :=
  ([Retrieve question], retriever question).

Definition invoke_llm (prompt : string) : G string :=
  ([Generate prompt], llm prompt).

Definition invoke_structured_llm (prompt : string) : G QuotedCitations :=
  ([Extract prompt], structured_llm prompt).

(** The first stage of the two dict chains:
    [{"context": retriever, "question": RunnablePassthrough()}]. *)
Definition retrieve_stage (question : string) : G (gmap string value) :=
  docs ← invoke_retriever question;
  mret (<["question" := VStr question]> {["context" := VDocs docs]}).

Definition make_basic_rag_chain (question : string) : G string :=
  docs ← invoke_retriever question;
  let context := format_docs docs in
  invoke_llm (rag_prompt_template question context).

(** [rag_response_chain], over the formatter [fmt] the variant uses. *)
Definition rag_response_chain (fmt : list Document → string)
    (d : gmap string value) : G string :=
  docs ← itemgetter "context" d ≫= as_docs;
  question ← itemgetter "question" d ≫= as_str;
  invoke_llm (rag_prompt_template question (fmt docs)).

Definition cite_response_chain (d : gmap string value) : G QuotedCitations :=
  docs ← itemgetter "context" d ≫= as_docs;
  question ← itemgetter "question" d ≫= as_str;
  answer ← itemgetter "answer" d ≫= as_str;
  invoke_structured_llm
    (cite_prompt_template question (format_docs_with_metadata docs) answer).

Definition make_rag_with_sources_chain (question : string)
    : G (gmap string value) :=
  retrieve_stage question
  ≫= assign "answer" (λ d, VStr <$> rag_response_chain format_docs d).

Definition answer_stage : gmap string value → G (gmap string value) :=
  assign "answer"
    (λ d, VStr <$> rag_response_chain format_docs_with_metadata d).

Definition citations_stage : gmap string value → G (gmap string value) :=
  assign "citations" (λ d, VCited <$> cite_response_chain d).

Definition make_rag_with_citations_chain (question : string)
    : G (gmap string value) :=
  (retrieve_stage question ≫= answer_stage) ≫= citations_stage.

End services.

End Generator.

(** * app.py: streaming, previews and the chat turn *)

Module App.

Import Index Retriever Generator.

(** ** Characters of a [str]

    Python iterates, slices and measures a [str] by code point. On UTF-8
    text a code point starts at a byte below 192 (one byte), below 224 (two
    bytes), below 240 (three) or above (four), and the bytes that follow
    belong to it. *)

Definition utf8_width (a : ascii) : nat :=
  let n := nat_of_ascii a in
  if (n <? 192)%nat then 1
  else if (n <? 224)%nat then 2
  else if (n <? 240)%nat then 3
  else 4.

(** The character being read, if any, closes the list it is added to. *)
Definition flush (cur : string) (rest : list string) : list string :=
  if bool_decide (cur = "") then rest else cur :: rest.

(** [chars_go pending cur s]: the characters of [s], where [cur] holds the
    bytes read of the current character and [pending] counts those it still
    lacks. *)
Fixpoint chars_go (pending : nat) (cur : string) (s : string) : list string :=
  match s with
  | "" => flush cur []
  | String a r =>
      match pending with
      | O => flush cur (chars_go (utf8_width a - 1) (String a "") r)
      | S k => chars_go k (cur +:+ String a "") r
      end
  end.

(** [list(text)] *)
Definition chars (text : string) : list string := chars_go 0 "" text.

(** [len(text)] *)
Definition len (text : string) : nat := length (chars text).

(** [''.join(parts)] *)
Definition concat_chars (parts : list string) : string := join "" parts.

(** ** [stream_text]

    The texts handed to [placeholder.markdown], in order; the pause between
    two of them is not part of the model. *)
Fixpoint stream_go (full_text : string) (rest : list string) : list string :=
  match rest with
  | [] => []
  | ch :: rest' =>
      let full_text' := full_text +:+ ch in
      full_text' :: stream_go full_text' rest'
  end.

Definition stream_text (text : string) : list string :=
  stream_go "" (chars text).

(** ** The preview of a source document in the history

    [d.page_content[:1000] + ("..." if len(d.page_content) > 1000 else "")] *)
Definition source_preview (page_content : string) : string :=
  concat_chars (take 1000 (chars page_content))
  +:+ (if (1000 <? len page_content)%nat then "..." else "").

(** ** A chat turn *)

(** What a key of a message dict holds. *)
Inductive field : Type :=
  | FStr (s : string)
  | FDocs (docs : list Document)
  | FCitations (cs : list Citation).

Abbreviation message := (gmap string field).

Definition user_message (content : string) : message :=
  {[ "role" := FStr "user"; "content" := FStr content ]}.

Definition assistant_message (content : string) : message :=
  {[ "role" := FStr "assistant"; "content" := FStr content ]}.

Definition no_key_error : string :=
  "Please provide your OpenAI API key in the sidebar.".

Definition no_index_error : string :=
  "No vector index found. Upload PDFs and click 'Build / Refresh Vector Index' first.".

(** How the turn ends: nothing was asked, [st.error] showed a text, the
    answer was streamed, or an exception left the script. *)
Inductive outcome : Type :=
  | NoQuery
  | ErrorShown (text : string)
  | Answered (answer : string)
  | Failed (e : exn).

(** [result[key]] read as the type the script goes on to use it at. *)
Definition result_str (d : gmap string value) (key : string)
    : result string :=
  match d !! key with
  | Some (VStr s) => Ok s
  | Some _ => Raise TypeError
  | None => Raise (KeyError key)
  end.

Definition result_docs (d : gmap string value) (key : string)
    : result (list Document) :=
  match d !! key with
  | Some (VDocs docs) => Ok docs
  | Some _ => Raise TypeError
  | None => Raise (KeyError key)
  end.

Definition result_citations (d : gmap string value) (key : string)
    : result (list Citation) :=
  match d !! key with
  | Some (VCited cited) => Ok (citations cited)
  | Some _ => Raise TypeError
  | None => Raise (KeyError key)
  end.

Section services.

Variable similarity_search : Chroma → string → Z → result (list Document).
Variable other_search : VectorStoreRetriever → string → result (list Document).
Variable llm : string → result string.
Variable structured_llm : string → result QuotedCitations.

(** Step 3 of the script, "Run chain": the assistant message to append and
    the answer streamed, for the chain the mode selects. *)
Definition run_chain (mode : string)
    (retriever : string → result (list Document)) (user_query : string)
    : result (message * string) :=
  if bool_decide (mode = "Answer only") then
    rbind (make_basic_rag_chain retriever llm user_query).2 (λ answer,
      Ok (assistant_message answer, answer))
  else if bool_decide (mode = "Answer + sources") then
    rbind (make_rag_with_sources_chain retriever llm user_query).2 (λ result,
      rbind (result_str result "answer") (λ answer,
        rbind (result_docs result "context") (λ docs,
          Ok (<["sources" := FDocs docs]> (assistant_message answer),
              answer))))
  else
    rbind (make_rag_with_citations_chain retriever llm structured_llm
             user_query).2 (λ result,
      rbind (result_str result "answer") (λ answer,
        rbind (result_citations result "citations") (λ citations_list,
          Ok (<["citations" := FCitations citations_list]>
                (assistant_message answer),
              answer)))).

(** The [if user_query:] block, as a step on [st.session_state["messages"]]:
    the history after the turn and how the turn ended. *)
Definition on_user_query (mode api_key : string) (vectorstore : option Chroma)
    (top_k : Z) (user_query : option string) (messages : list message)
    : list message * outcome :=
  match user_query with
  | None => (messages, NoQuery)
  | Some query =>
      if bool_decide (query = "") then (messages, NoQuery)
      else if bool_decide (api_key = "") then
        (messages, ErrorShown no_key_error)
      else
        match vectorstore with
        | None => (messages, ErrorShown no_index_error)
        | Some vs =>
            let messages1 := messages ++ [user_message query] in
            match get_similarity_retriever vs top_k with
            | Raise e => (messages1, Failed e)
            | Ok r =>
                let retriever := invoke similarity_search other_search r in
                match run_chain mode retriever query with
                | Raise e => (messages1, Failed e)
                | Ok (reply, answer) => (messages1 ++ [reply], Answered answer)
                end
            end
        end
  end.

End services.

End App.

(** * Specifications and fixtures *)

Module LoaderSpec.

Import Loader.

Section relation.

Variable context_llm : string → result string.
Variable uuid4 : nat → string.
Variables file_path original_doc_text : string.

(** The chunk built from window [w] with the title, the context and the
    identifier that the loop body obtained. *)
Definition chunk_of (id title context : string) (w : Document) : Document :=
  mkDocument (context +:+ sep2 +:+ page_content w)
    (chunk_metadata id (get (metadata w) "page" (PyInt 0))
       (get (metadata w) "source" (PyStr file_path)) title).

(** [enriched n ws ds]: the loop, entered after [n] draws, turns the
    windows [ws] into the chunks [ds], one after the other. *)
Inductive enriched : nat → list Document → list Document → Prop :=
  | enriched_nil n : enriched n [] []
  | enriched_cons n w ws ds title context :
      Path_name (get (metadata w) "source" (PyStr file_path)) = Ok title →
      generate_chunk_context context_llm original_doc_text (page_content w)
        = Ok context →
      enriched (S n) ws ds →
      enriched n (w :: ws) (chunk_of (uuid4 n) title context w :: ds).

End relation.

(** The reading under which a failed context generation degrades to an empty
    context: the build still returns one chunk per window, and the chunk of a
    window on which the generator failed is the separator and the raw text. *)
Definition degrades_to_empty_context
    (load_pdf : string → result (list Document))
    (split_documents : Z → Z → list Document → result (list Document))
    (context_llm : string → result string) (uuid4 : nat → string) : Prop :=
  ∀ file_path chunk_size chunk_overlap n pages ws,
    load_pdf file_path = Ok pages →
    split_documents chunk_size chunk_overlap pages = Ok ws →
    ∃ chunks n',
      create_contextual_chunks load_pdf split_documents context_llm uuid4
        file_path chunk_size chunk_overlap n = Ok (chunks, n')
      ∧ length chunks = length ws
      ∧ ∀ i w, ws !! i = Some w →
          is_Raise (generate_chunk_context context_llm
                      (join sep2 (page_content <$> pages)) (page_content w)) →
          ∃ c, chunks !! i = Some c
               ∧ page_content c = "" +:+ sep2 +:+ page_content w.

(** Fixtures: a one-page PDF cut into two windows. *)
Definition demo_source : string := "uploaded_docs/paper.pdf".

Definition demo_meta : gmap string pyval :=
  {[ "page" := PyInt 0; "source" := PyStr demo_source ]}.

Definition demo_page : Document := mkDocument "Alpha. Beta." demo_meta.

Definition demo_windows : list Document :=
  [mkDocument "Alpha." demo_meta; mkDocument "Beta." demo_meta].

Definition demo_load_pdf : string → result (list Document) :=
  λ _, Ok [demo_page].

Definition demo_split_documents : Z → Z → list Document → result (list Document) :=
  λ _ _ _, Ok demo_windows.

Definition demo_context_llm : string → result string :=
  λ _, Ok " Opening remarks. ".

Definition failing_context_llm : string → result string :=
  λ _, Raise (ServiceError "chat").

Definition demo_uuid4 : nat → string := pretty.

(** A context service that answers for the first window of the demo file
    and is down for the second. *)
Definition second_window_fails : string → result string :=
  λ prompt,
    if bool_decide (prompt = chunk_process_prompt "Alpha. Beta." "Beta.")
    then Raise (ServiceError "chat")
    else Ok " Opening remarks. ".

(** What the build of the demo file returns with these services. *)
Definition demo_chunks : list Document :=
  [chunk_of demo_source "0" "paper.pdf" "Opening remarks."
     (mkDocument "Alpha." demo_meta);
   chunk_of demo_source "1" "paper.pdf" "Opening remarks."
     (mkDocument "Beta." demo_meta)].

End LoaderSpec.

Module IndexSpec.

Import Index.

Section readings.

Variable Embeddings : Type.
Variable OpenAIEmbeddings : string → result Embeddings.
Variable Chroma_on_file : fs → string → string → result (Chroma * fs).

(** The reading under which opening a collection that is not there is an
    error, and opening never makes one. *)
Definition load_rejects_missing : Prop :=
  ∀ (disk : fs) path d,
    disk !! path = Some (Dir d) →
    collections d !! "my_context_db" = None →
    is_Raise (load_vectorstore Embeddings OpenAIEmbeddings Chroma_on_file
                disk path).

Definition load_never_creates : Prop :=
  ∀ (disk : fs) path vs disk',
    load_vectorstore Embeddings OpenAIEmbeddings Chroma_on_file disk path
    = Ok (vs, disk') →
    stored disk' path "my_context_db" = stored disk path "my_context_db".

Definition load_distinguishes_missing : Prop :=
  load_rejects_missing ∧ load_never_creates.

End readings.

(** Fixtures: the persist directory exists and holds one stray file, no
    collection; and the disk a load of it leaves. *)
Definition stray_disk : fs :=
  {[ VECTOR_DB_DIR := Dir (mkDir {[ "notes.txt" ]} ∅) ]}.

Definition loaded_stray_disk : fs :=
  {[ VECTOR_DB_DIR :=
       Dir (mkDir ({[ "chroma.sqlite3" ]} ∪ {[ "notes.txt" ]})
              {[ "my_context_db" := [] ]}) ]}.

(** A regular file where the persist directory should be. *)
Definition file_disk : fs := {[ VECTOR_DB_DIR := File ]}.

(** An embedding client made with a key configured, one made without, and a
    constructor that refuses a regular file. *)
Definition keyed_embeddings : string → result unit := λ _, Ok ().

Definition keyless_embeddings : string → result unit :=
  λ _, Raise ValidationError.

Definition refuses_file : fs → string → string → result (Chroma * fs) :=
  λ _ _ _, Raise ValueError.

End IndexSpec.

Module RetrieverSpec.

Import Index Retriever.


(** Fixtures: an index of three chunks that answers a query with its first
    [k] entries and, as the Chroma index does, raises for a [k] below
    one. *)
Definition demo_index : list Document :=
  [mkDocument "one" ∅; mkDocument "two" ∅; mkDocument "three" ∅].

Definition demo_similarity_search
    : Chroma → string → Z → result (list Document) :=
  λ _ _ k, if (k <? 1)%Z then Raise TypeError
           else Ok (take (Z.to_nat k) demo_index).

Definition no_other_search
    : VectorStoreRetriever → string → result (list Document) :=
  λ _ _, Raise ValueError.

Definition demo_vectorstore : Chroma := mkChroma VECTOR_DB_DIR "my_context_db".

End RetrieverSpec.

Module GeneratorSpec.

Import Generator.

(** The reading under which every citation returned names a document of the
    retrieved context. *)
Definition citations_within_context
    (retriever : string → result (list Document))
    (llm : string → result string)
    (structured_llm : string → result QuotedCitations) : Prop :=
  ∀ question log out cited c,
    make_rag_with_citations_chain retriever llm structured_llm question
    = (log, Ok out) →
    out !! "citations" = Some (VCited cited) →
    c ∈ citations cited →
    ∃ docs d,
      out !! "context" = Some (VDocs docs)
      ∧ d ∈ docs
      ∧ metadata d !! "id" = Some (PyStr (id c)).

(** The reading under which a structured reply that does not fit the schema
    counts as no citation: the turn still returns the answer already
    generated, with an empty list of citations. *)
Definition invalid_citations_count_as_none
    (retriever : string → result (list Document))
    (llm : string → result string)
    (structured_llm : string → result QuotedCitations) : Prop :=
  ∀ question docs answer,
    retriever question = Ok docs →
    llm (rag_prompt_template question (format_docs_with_metadata docs))
    = Ok answer →
    structured_llm
      (cite_prompt_template question (format_docs_with_metadata docs) answer)
    = Raise ValidationError →
    ∃ log out,
      make_rag_with_citations_chain retriever llm structured_llm question
      = (log, Ok out)
      ∧ out !! "answer" = Some (VStr answer)
      ∧ out !! "citations" = Some (VCited (mkQuotedCitations [])).

(** The state the first stage hands on. *)
Definition retrieved (question : string) (docs : list Document)
    : gmap string value :=
  <["question" := VStr question]> {["context" := VDocs docs]}.

(** [s] occurs in [t]. *)
Definition occurs_in (s t : string) : Prop :=
  ∃ before after, t = before +:+ s +:+ after.

(** Fixtures: one retrieved chunk, a model that answers, and three
    structured models: one that quotes the chunk, one that cites an id that
    is not in the context, one whose reply does not fit the schema. *)
Definition demo_chunk : Document :=
  mkDocument "Alpha is the first letter."
    {[ "id" := PyStr "c-1"; "page" := PyInt 0;
       "source" := PyStr "uploaded_docs/paper.pdf";
       "title" := PyStr "paper.pdf" ]}.

Definition demo_question : string := "What is alpha?".

Definition demo_retriever : string → result (list Document) :=
  λ _, Ok [demo_chunk].

Definition demo_llm : string → result string :=
  λ _, Ok "Alpha is the first letter.".

Definition demo_structured_llm : string → result QuotedCitations :=
  λ _, Ok (mkQuotedCitations
             [mkCitation "c-1" "uploaded_docs/paper.pdf" "paper.pdf" 0
                "Alpha is the first letter."]).

Definition stray_structured_llm : string → result QuotedCitations :=
  λ _, Ok (mkQuotedCitations
             [mkCitation "c-9" "elsewhere.pdf" "elsewhere.pdf" 7 "Omega."]).

Definition invalid_structured_llm : string → result QuotedCitations :=
  λ _, Raise ValidationError.

Definition demo_answer : string := "Alpha is the first letter.".

(** The calls of a demo run and the state it returns when the structured
    model replies with [cited]. *)
Definition demo_log : list call :=
  let context := format_docs_with_metadata [demo_chunk] in
  [Retrieve demo_question;
   Generate (rag_prompt_template demo_question context);
   Extract (cite_prompt_template demo_question context demo_answer)].

Definition demo_out (cited : QuotedCitations) : gmap string value :=
  <["citations" := VCited cited]>
    (<["answer" := VStr demo_answer]> (retrieved demo_question [demo_chunk])).

Definition demo_cited : QuotedCitations :=
  mkQuotedCitations
    [mkCitation "c-1" "uploaded_docs/paper.pdf" "paper.pdf" 0
       "Alpha is the first letter."].

Definition stray_cited : QuotedCitations :=
  mkQuotedCitations
    [mkCitation "c-9" "elsewhere.pdf" "elsewhere.pdf" 7 "Omega."].

End GeneratorSpec.

Module MoreFixtures.

Import Index Retriever Generator App.

(** More fixtures: services that are down, a retrieval that finds nothing,
    a second chunk and a state without an answer. *)
Definition failing_retriever : string → result (list Document) :=
  λ _, Raise (ServiceError "index").

Definition empty_retriever : string → result (list Document) :=
  λ _, Ok [].

Definition failing_llm : string → result string :=
  λ _, Raise (ServiceError "chat").

Definition second_chunk : Document :=
  mkDocument "Beta is the second letter." {[ "page" := PyInt 3 ]}.

Definition failing_similarity_search
    : Chroma → string → Z → result (list Document) :=
  λ _ _ _, Raise (ServiceError "index").

(** One newline. *)
Definition lf : string := String LF "".

Definition unanswered_state : gmap string value :=
  <["question" := VStr "What is alpha?"]> {["context" := VDocs [second_chunk]]}.

End MoreFixtures.

Module PathSpec.

Import Loader LoaderSpec.

(** No byte of [s] is a slash. *)
Fixpoint slash_free (s : string) : bool :=
  match s with
  | "" => true
  | String c r => negb (bool_decide (c = "/"%char)) && slash_free r
  end.

(** The scan of [lstrip] and of [lstrip_rev], over the tests for a two-byte
    and a three-byte space. *)
Fixpoint lstrip_with (w2 : ascii → ascii → bool)
    (w3 : ascii → ascii → ascii → bool) (s : string) : string :=
  match s with
  | "" => ""
  | String a r1 =>
      if is_ws1 a then lstrip_with w2 w3 r1 else
      match r1 with
      | "" => s
      | String b r2 =>
          if w2 a b then lstrip_with w2 w3 r2 else
          match r2 with
          | "" => s
          | String c r3 => if w3 a b c then lstrip_with w2 w3 r3 else s
          end
      end
  end.

(** No space starts [s], as far as the scan can tell from the bytes there. *)
Definition front_clean (w2 : ascii → ascii → bool)
    (w3 : ascii → ascii → ascii → bool) (s : string) : bool :=
  match s with
  | "" => true
  | String a r1 =>
      negb (is_ws1 a)
      && match r1 with
         | "" => true
         | String b r2 =>
             negb (w2 a b)
             && match r2 with
                | "" => true
                | String c _ => negb (w3 a b c)
                end
         end
  end.

Definition rev_ws2 : ascii → ascii → bool := λ a b, is_ws2 b a.
Definition rev_ws3 : ascii → ascii → ascii → bool := λ a b c, is_ws3 c b a.

(** Every window has a context and a title. *)
Definition all_enrichable (context_llm : string → result string)
    (fp : string) (pages ws : list Document) : Prop :=
  Forall (λ w, is_Ok (generate_chunk_context context_llm
                        (join sep2 (page_content <$> pages)) (page_content w))
               ∧ is_Ok (Path_name (get (metadata w) "source" (PyStr fp)))) ws.

(** What a build of two copies of the demo file returns. *)
Definition demo_build : list Document :=
  demo_chunks
  ++ [chunk_of demo_source "2" "paper.pdf" "Opening remarks."
        (mkDocument "Alpha." demo_meta);
      chunk_of demo_source "3" "paper.pdf" "Opening remarks."
        (mkDocument "Beta." demo_meta)].

(** A file that cannot be read. *)
Definition picky_load_pdf : string → result (list Document) :=
  λ path, if bool_decide (path = "broken.pdf")
          then Raise (ServiceError "pdf") else Ok [demo_page].

(** A splitter that finds no text. *)
Definition blank_split_documents
    : Z → Z → list Document → result (list Document) :=
  λ _ _ _, Ok [].

End PathSpec.

Module PlainSpec.

Import Generator GeneratorSpec MoreFixtures.

(** The context the answer-only pipeline is to submit, in the spec's words:
    the contents of the retrieved chunks, in the order retrieved, with a
    double newline between one and the next. *)
Fixpoint contents_in_order (docs : list Document) : string :=
  match docs with
  | [] => ""
  | [d] => page_content d
  | d :: rest =>
      page_content d
      +:+ String "010" (String "010" (contents_in_order rest))
  end.

(** What is to be submitted to the generation service, in the spec's words:
    the question and that context under the fixed instruction to answer
    from the context only and to say so when the answer is not there. *)
Definition submitted_prompt (question context : string) : string :=
"You are an assistant who is an expert in question-answering tasks.
Answer the following question using only the retrieved context.
If the answer is not in the context, say that you don't know.
Keep the answer detailed and well formatted.

Question:
" +:+ question +:+ "

Context:
" +:+ context +:+ "

Answer:
".

(** Fixture: a retrieval of three chunks. *)
Definition third_chunk : Document :=
  mkDocument "Gamma is the third letter." {[ "page" := PyInt 4 ]}.

Definition three_retriever : string → result (list Document) :=
  λ _, Ok [demo_chunk; second_chunk; third_chunk].

End PlainSpec.

(** * Facts *)

(** ** Strings and paths *)

Example path_name_file : path_name "uploaded_docs/paper.pdf" = "paper.pdf".
Proof. reflexivity. Qed.

Example path_name_trailing : path_name "/a/b/./" = "b".
Proof. reflexivity. Qed.

Example path_name_root : path_name "/" = "".
Proof. reflexivity. Qed.

Example strip_both : strip (String LF "  ab c  " +:+ sep2) = "ab c".
Proof. reflexivity. Qed.

(** U+00A0 and U+2003 are stripped as whole code points. *)
Example strip_unicode :
  strip (String (ascii_of_nat 194) (String (ascii_of_nat 160) "x")
         +:+ String (ascii_of_nat 226) (String (ascii_of_nat 128)
               (String (ascii_of_nat 131) ""))) = "x".
Proof. reflexivity. Qed.

Example strip_inner : strip "a  b" = "a  b".
Proof. reflexivity. Qed.

Example join_three : join sep2 ["a"; "b"; "c"] = "a" +:+ sep2 +:+ "b" +:+ sep2 +:+ "c".
Proof. reflexivity. Qed.

Example py_str_neg : py_str (PyInt (-12)) = "-12".
Proof. reflexivity. Qed.

(** ** loader.py *)

Module LoaderFacts.

Import Loader LoaderSpec.

Section services.

Variable load_pdf : string → result (list Document).
Variable split_documents : Z → Z → list Document → result (list Document).
Variable context_llm : string → result string.
Variable uuid4 : nat → string.

Abbreviation generate := (generate_chunk_context context_llm).
Abbreviation enrich_chunk := (enrich_chunk context_llm uuid4).
Abbreviation for_chunks := (for_chunks context_llm uuid4).
Abbreviation create := (create_contextual_chunks load_pdf split_documents context_llm uuid4).
Abbreviation enriched := (enriched context_llm uuid4).

(** The loop body returns exactly when the title and the context are
    obtained, and then draws one UUID. *)
Lemma enrich_chunk_Ok fp text w n d n' :
  enrich_chunk fp text w n = Ok (d, n') ↔
  n' = S n ∧ ∃ title context,
    Path_name (get (metadata w) "source" (PyStr fp)) = Ok title
    ∧ generate text (page_content w) = Ok context
    ∧ d = chunk_of fp (uuid4 n) title context w.
Proof.
  unfold Loader.enrich_chunk, mbind, M_bind, bind, lift, fresh_uuid, mret,
    M_ret, ret, chunk_of.
  destruct (Path_name _) as [title|e].
  - destruct (generate_chunk_context _ _ _) as [context|e]; split.
    + intros [= <- <-]. eauto 6.
    + intros (-> & t & c & [= <-] & [= <-] & ->). done.
    + done.
    + intros (_ & t & c & _ & [=] & _).
  - split; [done|]. intros (_ & t & c & [=] & _).
Qed.

Lemma enrich_chunk_Raise fp text w n e :
  generate text (page_content w) = Raise e →
  is_Raise (enrich_chunk fp text w n).
Proof.
  intros Hgen.
  destruct (enrich_chunk fp text w n) as [[d n']|e'] eqn:Hrun;
    [|by eexists].
  apply enrich_chunk_Ok in Hrun as (_ & title & context & _ & Hctx & _).
  congruence.
Qed.

Lemma for_chunks_cons fp text w ws acc n :
  for_chunks fp text (w :: ws) acc n =
  match enrich_chunk fp text w n with
  | Ok (d, n') => for_chunks fp text ws (acc ++ [d]) n'
  | Raise e => Raise e
  end.
Proof. reflexivity. Qed.

(** The loop returns exactly the chunks related to the windows by
    [enriched], appended to what [contextual_chunks] held. *)
Lemma for_chunks_Ok fp text ws acc n out n' :
  for_chunks fp text ws acc n = Ok (out, n') ↔
  n' = n + length ws ∧ ∃ ds, enriched fp text n ws ds ∧ out = acc ++ ds.
Proof.
  revert acc n. induction ws as [|w ws IH]; intros acc n.
  - cbn. unfold ret. split.
    + intros [= <- <-]. split; [lia|]. exists []. split; [constructor|].
      by rewrite app_nil_r.
    + intros (-> & ds & Hds & ->). inversion Hds; subst.
      by rewrite app_nil_r, Nat.add_0_r.
  - rewrite for_chunks_cons. split.
    + destruct (enrich_chunk fp text w n) as [[d m]|e] eqn:Hstep; [|done].
      apply enrich_chunk_Ok in Hstep as (-> & title & context & Ht & Hc & ->).
      intros Hrest. apply IH in Hrest as (-> & ds & Hds & ->).
      split; [cbn; lia|]. eexists (_ :: ds). split.
      * by econstructor.
      * by rewrite <- app_assoc.
    + intros (-> & ds & Hds & ->). inversion Hds as [|? ? ? ds' title context Ht Hc Hrest]; subst.
      assert (enrich_chunk fp text w n
              = Ok (chunk_of fp (uuid4 n) title context w, S n)) as ->.
      { apply enrich_chunk_Ok. eauto 6. }
      apply IH. split; [cbn; lia|]. exists ds'. split; [done|].
      by rewrite <- app_assoc.
Qed.

(** A window on which context generation fails makes the loop raise. *)
Lemma for_chunks_Raise fp text ws acc n w e :
  w ∈ ws → generate text (page_content w) = Raise e →
  is_Raise (for_chunks fp text ws acc n).
Proof.
  intros Hin Hgen. revert acc n.
  induction ws as [|w' ws IH]; intros acc n; [by apply elem_of_nil in Hin|].
  rewrite for_chunks_cons.
  destruct (enrich_chunk fp text w' n) as [[d m]|e'] eqn:Hstep; [|by eexists].
  apply elem_of_cons in Hin as [->|Hin]; [|by apply IH].
  destruct (enrich_chunk_Raise fp text w' n e Hgen) as [e' He']. congruence.
Qed.

Lemma enriched_length fp text n ws ds :
  enriched fp text n ws ds → length ds = length ws.
Proof. induction 1; cbn; congruence. Qed.

(** The chunk at position [i] is built from the window at position [i],
    with the UUID of draw [n + i]. *)
Lemma enriched_lookup fp text n ws ds i w :
  enriched fp text n ws ds → ws !! i = Some w →
  ∃ title context,
    Path_name (get (metadata w) "source" (PyStr fp)) = Ok title
    ∧ generate text (page_content w) = Ok context
    ∧ ds !! i = Some (chunk_of fp (uuid4 (n + i)) title context w).
Proof.
  intros Hds. revert i. induction Hds as [|n w' ws ds title context Ht Hc _ IH];
    intros i Hi; [done|].
  destruct i as [|i]; cbn in Hi.
  - injection Hi as ->. exists title, context. by rewrite Nat.add_0_r.
  - destruct (IH i Hi) as (t & c & ? & ? & Hl). exists t, c.
    by rewrite <- Nat.add_succ_comm.
Qed.

Lemma enriched_ids fp text n ws ds :
  enriched fp text n ws ds →
  chunk_id <$> ds = (λ i, Some (PyStr (uuid4 i))) <$> seq n (length ws).
Proof. induction 1; cbn; [done|]. by f_equal. Qed.

(** When every window has a title and a context, the loop has chunks to
    return. *)
Lemma enriched_total fp text n ws :
  Forall (λ w, is_Ok (generate text (page_content w))
               ∧ is_Ok (Path_name (get (metadata w) "source" (PyStr fp)))) ws →
  ∃ ds, enriched fp text n ws ds.
Proof.
  intros Hall. revert n.
  induction Hall as [|w ws [[context Hc] [title Ht]] _ IH]; intros n.
  - exists []. constructor.
  - destruct (IH (S n)) as [ds Hds]. eexists. by econstructor.
Qed.

Lemma create_unfold fp size overlap n pages ws :
  load_pdf fp = Ok pages → split_documents size overlap pages = Ok ws →
  create fp size overlap n
  = for_chunks fp (join sep2 (page_content <$> pages)) ws [] n.
Proof.
  intros Hload Hsplit.
  unfold create_contextual_chunks, mbind, M_bind, bind, lift.
  by rewrite Hload, Hsplit.
Qed.

Lemma create_Ok_ids fp size overlap n chunks n' :
  create fp size overlap n = Ok (chunks, n') →
  n' = n + length chunks
  ∧ chunk_id <$> chunks
    = (λ i, Some (PyStr (uuid4 i))) <$> seq n (length chunks).
Proof.
  destruct (load_pdf fp) as [pages|e] eqn:Hload.
  - destruct (split_documents size overlap pages) as [ws|e] eqn:Hsplit.
    + rewrite (create_unfold _ _ _ _ _ _ Hload Hsplit). intros Hrun.
      apply for_chunks_Ok in Hrun as (-> & ds & Hds & ->). cbn.
      rewrite (enriched_length _ _ _ _ _ Hds).
      split; [done|]. by eapply enriched_ids.
    + unfold create_contextual_chunks, mbind, M_bind, bind, lift.
      by rewrite Hload, Hsplit.
  - unfold create_contextual_chunks, mbind, M_bind, bind, lift.
    by rewrite Hload.
Qed.

(** Over a whole build the chunks gathered take the draws [n], [n + 1],
    ... in order, whatever file they come from. *)
Lemma for_file_paths_ids fps acc n out n' :
  for_file_paths load_pdf split_documents context_llm uuid4 fps acc n
  = Ok (out, n') →
  ∃ new,
    out = acc ++ new ∧ n' = n + length new
    ∧ chunk_id <$> new
      = (λ i, Some (PyStr (uuid4 i))) <$> seq n (length new).
Proof.
  revert acc n. induction fps as [|fp fps IH]; intros acc n; cbn.
  - unfold ret. intros [= <- <-]. exists []. by rewrite app_nil_r, Nat.add_0_r.
  - unfold mbind, M_bind, bind.
    destruct (create fp CHUNK_SIZE CHUNK_OVERLAP n) as [[chunks m]|e] eqn:Hc;
      [|done].
    apply create_Ok_ids in Hc as [-> Hids]. intros Hrest.
    apply IH in Hrest as (new & -> & -> & Hnew).
    exists (chunks ++ new). rewrite length_app, <- app_assoc.
    split; [done|]. split; [lia|].
    by rewrite fmap_app, seq_app, fmap_app, Hids, Hnew.
Qed.

(** X3: The ids of all the chunks of one build are pairwise distinct. *)
Lemma build_ids_distinct fps n out n' :
  Inj (=) (=) uuid4 →
  for_file_paths load_pdf split_documents context_llm uuid4 fps [] n
  = Ok (out, n') →
  NoDup (chunk_id <$> out).
Proof.
  intros Hinj Hrun.
  apply for_file_paths_ids in Hrun as (new & -> & _ & Hids). cbn.
  rewrite Hids. apply NoDup_fmap_2; [|apply NoDup_seq].
  intros i j [= Hij]. by apply Hinj.
Qed.

Lemma chunk_metadata_dom id page source title :
  dom (chunk_metadata id page source title)
  = ({[ "id"; "page"; "source"; "title" ]} : gset string).
Proof.
  unfold chunk_metadata. rewrite !dom_insert_L, dom_singleton_L. set_solver.
Qed.

Lemma chunk_metadata_lookup id page source title :
  let m := chunk_metadata id page source title in
  m !! "id" = Some (PyStr id) ∧ m !! "page" = Some page
  ∧ m !! "source" = Some source ∧ m !! "title" = Some (PyStr title).
Proof.
  unfold chunk_metadata; cbn. repeat split; reflexivity.
Qed.

Lemma Path_name_Ok v title :
  Path_name v = Ok title → ∃ src, v = PyStr src ∧ title = path_name src.
Proof. destruct v as [src|z]; [|done]. intros [= <-]. by exists src. Qed.

(** C5: for every window of the splitter, the chunk at the same position
    has as content the generated context, the separator and the window's
    raw text; its metadata has exactly the keys id, page, source and title;
    page and source are those of the window ([meta.get] falls back to 0 and
    to the file path for a window without them) and title is the file name
    of source. *)
Theorem create_contextual_chunks_content_metadata
    fp size overlap n pages ws chunks n' :
  load_pdf fp = Ok pages →
  split_documents size overlap pages = Ok ws →
  create fp size overlap n = Ok (chunks, n') →
  length chunks = length ws ∧
  ∀ i w, ws !! i = Some w →
    ∃ c context src,
      chunks !! i = Some c
      ∧ generate (join sep2 (page_content <$> pages)) (page_content w)
        = Ok context
      ∧ page_content c = context +:+ sep2 +:+ page_content w
      ∧ dom (metadata c) = {[ "id"; "page"; "source"; "title" ]}
      ∧ metadata c !! "page" = Some (get (metadata w) "page" (PyInt 0))
      ∧ (∀ p, metadata w !! "page" = Some p → metadata c !! "page" = Some p)
      ∧ get (metadata w) "source" (PyStr fp) = PyStr src
      ∧ metadata c !! "source" = Some (PyStr src)
      ∧ (∀ s, metadata w !! "source" = Some s → s = PyStr src)
      ∧ metadata c !! "title" = Some (PyStr (path_name src)).
Proof.
  intros Hload Hsplit Hrun.
  rewrite (create_unfold _ _ _ _ _ _ Hload Hsplit) in Hrun.
  apply for_chunks_Ok in Hrun as (-> & ds & Hds & ->). cbn.
  split; [by eapply enriched_length|].
  intros i w Hi.
  destruct (enriched_lookup _ _ _ _ _ _ _ Hds Hi) as (title & context & Ht & Hc & Hl).
  destruct (Path_name_Ok _ _ Ht) as (src & Hsrc & ->).
  eexists _, context, src. split; [exact Hl|]. split; [exact Hc|].
  split; [done|]. cbn. split; [apply chunk_metadata_dom|].
  destruct (chunk_metadata_lookup (uuid4 (n + i))
              (get (metadata w) "page" (PyInt 0))
              (get (metadata w) "source" (PyStr fp)) (path_name src))
    as (_ & Hpage & Hsource & Htitle).
  split_and!.
  - exact Hpage.
  - intros p Hp. rewrite Hpage. unfold get. by rewrite Hp.
  - exact Hsrc.
  - by rewrite Hsource, Hsrc.
  - intros s Hs. unfold get in Hsrc. by rewrite Hs in Hsrc.
  - exact Htitle.
Qed.

(** C10: when the context and the title are obtained for every window, one
    chunk is returned per window, in the windows' order, the chunk at
    position [i] carrying the UUID of its own draw; the ids of the chunks
    are pairwise distinct as long as the generator does not repeat a
    value. *)
Theorem create_contextual_chunks_one_per_window
    fp size overlap n pages ws :
  Inj (=) (=) uuid4 →
  load_pdf fp = Ok pages →
  split_documents size overlap pages = Ok ws →
  Forall (λ w, is_Ok (generate (join sep2 (page_content <$> pages))
                         (page_content w))
               ∧ is_Ok (Path_name (get (metadata w) "source" (PyStr fp)))) ws →
  ∃ chunks,
    create fp size overlap n = Ok (chunks, n + length ws)
    ∧ length chunks = length ws
    ∧ (∀ i w, ws !! i = Some w →
         ∃ c context,
           chunks !! i = Some c
           ∧ page_content c = context +:+ sep2 +:+ page_content w
           ∧ metadata c !! "page" = Some (get (metadata w) "page" (PyInt 0))
           ∧ chunk_id c = Some (PyStr (uuid4 (n + i))))
    ∧ NoDup (chunk_id <$> chunks).
Proof.
  intros Hinj Hload Hsplit Hall.
  destruct (enriched_total fp _ n ws Hall) as [ds Hds].
  exists ds. rewrite (create_unfold _ _ _ _ _ _ Hload Hsplit).
  split; [apply for_chunks_Ok; eauto|].
  split; [by eapply enriched_length|]. split.
  - intros i w Hi.
    destruct (enriched_lookup _ _ _ _ _ _ _ Hds Hi) as (title & context & _ & _ & Hl).
    eexists _, context. split; [exact Hl|]. split; [done|].
    unfold chunk_id, chunk_of; cbn.
    destruct (chunk_metadata_lookup (uuid4 (n + i))
                (get (metadata w) "page" (PyInt 0))
                (get (metadata w) "source" (PyStr fp)) title)
      as (Hid & Hpage & _). by split.
  - rewrite (enriched_ids _ _ _ _ _ Hds). apply NoDup_fmap_2; [|apply NoDup_seq].
    intros i j [= Hij]. by apply Hinj.
Qed.

Lemma generate_is_Ok_iff text chunk :
  is_Ok (generate text chunk)
  ↔ is_Ok (context_llm (chunk_process_prompt text chunk)).
Proof.
  unfold generate_chunk_context.
  destruct (context_llm _) as [reply|e]; split; intros [x Hx]; try done;
    by eexists.
Qed.

Lemma enrich_chunk_Raise_with fp text w n title e :
  Path_name (get (metadata w) "source" (PyStr fp)) = Ok title →
  context_llm (chunk_process_prompt text (page_content w)) = Raise e →
  enrich_chunk fp text w n = Raise e.
Proof.
  intros Ht Hllm.
  unfold Loader.enrich_chunk, generate_chunk_context, mbind, M_bind, bind,
    lift, fresh_uuid.
  by rewrite Ht, Hllm.
Qed.

Lemma for_chunks_app fp text ws1 ws2 acc n :
  for_chunks fp text (ws1 ++ ws2) acc n =
  match for_chunks fp text ws1 acc n with
  | Ok (out, m) => for_chunks fp text ws2 out m
  | Raise e => Raise e
  end.
Proof.
  revert acc n. induction ws1 as [|w ws1 IH]; intros acc n; [done|].
  change ((w :: ws1) ++ ws2) with (w :: (ws1 ++ ws2)).
  rewrite !for_chunks_cons.
  destruct (enrich_chunk fp text w n) as [[d m]|e]; [|done]. apply IH.
Qed.

(** C2, as the code has it: a failed context-generation call is not made up
    for by an empty context. The windows are taken in order; when the call
    for a window raises, the windows before it having got their context and
    title, that same exception leaves [create_contextual_chunks]. Whichever
    window the call fails for, no chunk is returned for any window; chunks
    are returned only when the call succeeded for every window. *)
Theorem create_contextual_chunks_failure_propagates
    fp size overlap n pages ws :
  load_pdf fp = Ok pages →
  split_documents size overlap pages = Ok ws →
  let prompt_of (w : Document) :=
    chunk_process_prompt (join sep2 (page_content <$> pages)) (page_content w)
  in
  (∀ before w after e,
     ws = before ++ w :: after →
     Forall (λ w', is_Ok (context_llm (prompt_of w'))
                   ∧ is_Ok (Path_name (get (metadata w') "source" (PyStr fp))))
       before →
     is_Ok (Path_name (get (metadata w) "source" (PyStr fp))) →
     context_llm (prompt_of w) = Raise e →
     create_contextual_chunks load_pdf split_documents context_llm uuid4
       fp size overlap n = Raise e)
  ∧ (∀ w e,
       w ∈ ws → context_llm (prompt_of w) = Raise e →
       is_Raise (create fp size overlap n))
  ∧ (is_Ok (create fp size overlap n) →
     Forall (λ w, is_Ok (context_llm (prompt_of w))) ws).
Proof.
  intros Hload Hsplit prompt_of.
  rewrite (create_unfold _ _ _ _ _ _ Hload Hsplit). split_and!.
  - intros before w after e -> Hbefore [title Ht] Hllm.
    rewrite for_chunks_app.
    destruct (enriched_total fp (join sep2 (page_content <$> pages)) n before)
      as [ds Hds].
    { eapply Forall_impl; [exact Hbefore|]. intros w' [Hc Hp].
      split; [by apply generate_is_Ok_iff | done]. }
    assert (for_chunks fp (join sep2 (page_content <$> pages)) before [] n
            = Ok (ds, n + length before)) as ->.
    { apply for_chunks_Ok. split; [done|]. by exists ds. }
    rewrite for_chunks_cons.
    by rewrite (enrich_chunk_Raise_with _ _ _ _ title e Ht Hllm).
  - intros w e Hin Hllm. eapply for_chunks_Raise; [exact Hin|].
    unfold generate_chunk_context. fold (prompt_of w). by rewrite Hllm.
  - intros [[chunks n'] Hrun].
    apply for_chunks_Ok in Hrun as (_ & ds & Hds & _).
    clear - Hds. induction Hds as [|m w ws ds title context Ht Hc _ IH];
      constructor; [|done].
    apply generate_is_Ok_iff. by eexists.
Qed.

End services.

Lemma create_contextual_chunks_content_metadata_witness :
  length demo_chunks = 2
  ∧ ∃ c, demo_chunks !! 1 = Some c
         ∧ page_content c = "Opening remarks." +:+ sep2 +:+ "Beta."
         ∧ dom (metadata c) = {[ "id"; "page"; "source"; "title" ]}
         ∧ metadata c !! "page" = Some (PyInt 0)
         ∧ metadata c !! "source" = Some (PyStr demo_source)
         ∧ metadata c !! "title" = Some (PyStr "paper.pdf").
Proof.
  destruct (create_contextual_chunks_content_metadata
              demo_load_pdf demo_split_documents demo_context_llm demo_uuid4
              demo_source CHUNK_SIZE CHUNK_OVERLAP 0 [demo_page] demo_windows
              demo_chunks 2 eq_refl eq_refl eq_refl) as [Hlen Hall].
  split; [exact Hlen|].
  destruct (Hall 1 (mkDocument "Beta." demo_meta) eq_refl)
    as (c & context & src & Hc & Hgen & Hcontent & Hdom & Hpage & _ & Hsrc
        & Hsource & _ & Htitle).
  exists c. injection Hgen as <-. injection Hsrc as <-.
  split_and!; done.
Defined.

Lemma create_contextual_chunks_one_per_window_witness :
  ∃ chunks,
    create_contextual_chunks demo_load_pdf demo_split_documents
      demo_context_llm demo_uuid4 demo_source CHUNK_SIZE CHUNK_OVERLAP 0
    = Ok (chunks, 2)
    ∧ length chunks = 2
    ∧ NoDup (chunk_id <$> chunks).
Proof.
  destruct (create_contextual_chunks_one_per_window
              demo_load_pdf demo_split_documents demo_context_llm demo_uuid4
              demo_source CHUNK_SIZE CHUNK_OVERLAP 0 [demo_page] demo_windows)
    as (chunks & Hrun & Hlen & _ & Hnodup).
  - unfold demo_uuid4. apply pretty_nat_inj.
  - reflexivity.
  - reflexivity.
  - repeat constructor; eexists; reflexivity.
  - exists chunks. split; [exact Hrun|]. split; [exact Hlen | exact Hnodup].
Defined.

(** C2, as stated, fails: with a context service that is down, the build of
    the demo file returns no chunks instead of two chunks with an empty
    context. *)
Lemma degrades_to_empty_context_fails :
  ¬ degrades_to_empty_context demo_load_pdf demo_split_documents
      failing_context_llm demo_uuid4.
Proof.
  intros Hclaim.
  destruct (Hclaim demo_source CHUNK_SIZE CHUNK_OVERLAP 0 [demo_page]
              demo_windows eq_refl eq_refl) as (chunks & n' & Hrun & _).
  vm_compute in Hrun. discriminate.
Qed.

Lemma create_contextual_chunks_failure_propagates_witness :
  create_contextual_chunks demo_load_pdf demo_split_documents
    second_window_fails demo_uuid4 demo_source CHUNK_SIZE CHUNK_OVERLAP 0
  = Raise (ServiceError "chat").
Proof.
  destruct (create_contextual_chunks_failure_propagates
              demo_load_pdf demo_split_documents second_window_fails
              demo_uuid4 demo_source CHUNK_SIZE CHUNK_OVERLAP 0 [demo_page]
              demo_windows eq_refl eq_refl) as (Hfirst & _ & _).
  apply (Hfirst [mkDocument "Alpha." demo_meta]
           (mkDocument "Beta." demo_meta) [] (ServiceError "chat")).
  - reflexivity.
  - repeat constructor; eexists; reflexivity.
  - eexists; reflexivity.
  - reflexivity.
Defined.

End LoaderFacts.

(** ** load_vectorstore *)

Module IndexFacts.

Import Index IndexSpec.

Section services.

Variable Embeddings : Type.
Variable OpenAIEmbeddings : string → result Embeddings.
Variable Chroma_on_file : fs → string → string → result (Chroma * fs).

Abbreviation load :=
  (load_vectorstore Embeddings OpenAIEmbeddings Chroma_on_file).
Abbreviation app :=
  (app_vectorstore Embeddings OpenAIEmbeddings Chroma_on_file).

(** Opening get-or-create, once the embedding client is there, on a path
    that is no regular file. *)
Lemma Chroma_init_gets_or_creates (disk : fs) path em :
  disk !! path ≠ Some File →
  ∃ disk',
    Chroma_init Embeddings Chroma_on_file true disk path "my_context_db" em
    = Ok (mkChroma path "my_context_db", disk')
    ∧ stored disk' path "my_context_db"
      = Some (default [] (stored disk path "my_context_db"))
    ∧ (∀ path', path' ≠ path → disk' !! path' = disk !! path')
    ∧ ∃ d', disk' !! path = Some (Dir d')
            ∧ {[ "chroma.sqlite3" ]} ∪ entries d' = entries d'
            ∧ is_Some (collections d' !! "my_context_db").
Proof.
  intros Hfile. unfold Chroma_init, stored, dir_at.
  destruct (disk !! path) as [[|d]|] eqn:Hd; [done| |]; cbn.
  - destruct (collections d !! "my_context_db") as [docs|] eqn:Hc;
      eexists; (split; [reflexivity|]); rewrite lookup_insert_eq; cbn.
    + rewrite Hc. split; [done|]. split.
      { intros path' Hne. by rewrite lookup_insert_ne. }
      eexists. split; [done|]. cbn. split; [|by rewrite Hc].
      by rewrite (assoc_L (∪)), union_idemp_L.
    + rewrite lookup_insert_eq. split; [done|]. split.
      { intros path' Hne. by rewrite lookup_insert_ne. }
      eexists. split; [done|]. cbn. split; [|by rewrite lookup_insert_eq].
      by rewrite (assoc_L (∪)), union_idemp_L.
  - eexists. split; [reflexivity|]. rewrite lookup_insert_eq; cbn.
    split; [done|]. split.
    { intros path' Hne. by rewrite lookup_insert_ne. }
    eexists. split; [done|]. cbn. split; [|by rewrite lookup_insert_eq].
    by rewrite (assoc_L (∪)), union_idemp_L.
Qed.

(** C8, as the code has it: [load_vectorstore] checks nothing and has no
    not-found error of its own. It first makes the embedding client, and
    when that raises, as it does without an API key, the exception is the
    outcome. Otherwise, on a persist path that is absent or a directory, it
    returns a handle on the collection my_context_db under that path: the
    documents already stored there when the collection exists, and otherwise
    a collection it has just created empty, also when the directory held
    something else or did not exist; the other paths are left as they
    were. *)
Theorem load_vectorstore_gets_or_creates (disk : fs) path :
  (∀ e, get_embedding_model Embeddings OpenAIEmbeddings = Raise e →
        load_vectorstore Embeddings OpenAIEmbeddings Chroma_on_file disk path
        = Raise e)
  ∧ (∀ em, get_embedding_model Embeddings OpenAIEmbeddings = Ok em →
           disk !! path ≠ Some File →
           ∃ vs disk',
             load_vectorstore Embeddings OpenAIEmbeddings Chroma_on_file
               disk path = Ok (vs, disk')
             ∧ vs = mkChroma path "my_context_db"
             ∧ stored disk' path "my_context_db"
               = Some (default [] (stored disk path "my_context_db"))
             ∧ ∀ path', path' ≠ path → disk' !! path' = disk !! path').
Proof.
  unfold load_vectorstore. split.
  - intros e ->. reflexivity.
  - intros em -> Hfile. cbn.
    destruct (Chroma_init_gets_or_creates disk path em Hfile)
      as (disk' & -> & Hstored & Hframe & _).
    by eexists _, disk'.
Qed.

(** X17: the guard of [app.py], case by case. Without a persist path, or
    with an empty directory there, there is no vector store, no error, and
    the disk is untouched. A regular file at the path makes the listing of
    the guard raise [NotADirectoryError]. A directory with anything in it is
    opened by [load_vectorstore]: the exception of the embedding client
    leaves the script, and otherwise a handle on my_context_db is
    obtained. *)
Theorem app_vectorstore_guard (disk : fs) :
  match disk !! VECTOR_DB_DIR with
  | None =>
      app_vectorstore Embeddings OpenAIEmbeddings Chroma_on_file disk
      = Ok (None, disk)
  | Some File =>
      app_vectorstore Embeddings OpenAIEmbeddings Chroma_on_file disk
      = Raise NotADirectoryError
  | Some (Dir d) =>
      if decide (entries d = ∅)
      then app_vectorstore Embeddings OpenAIEmbeddings Chroma_on_file disk
           = Ok (None, disk)
      else match get_embedding_model Embeddings OpenAIEmbeddings with
           | Raise e =>
               app_vectorstore Embeddings OpenAIEmbeddings Chroma_on_file disk
               = Raise e
           | Ok _ =>
               ∃ disk',
                 app_vectorstore Embeddings OpenAIEmbeddings Chroma_on_file
                   disk
                 = Ok (Some (mkChroma VECTOR_DB_DIR "my_context_db"), disk')
                 ∧ stored disk' VECTOR_DB_DIR "my_context_db"
                   = Some (default [] (stored disk VECTOR_DB_DIR
                                         "my_context_db"))
           end
  end.
Proof.
  unfold app_vectorstore, vectorstore_available.
  destruct (disk !! VECTOR_DB_DIR) as [[|d]|] eqn:Hd; [done| |done].
  destruct (decide (entries d = ∅)) as [He|He]; cbn.
  - by rewrite bool_decide_eq_true_2.
  - rewrite bool_decide_eq_false_2 by done. cbn.
    unfold load_vectorstore.
    destruct (get_embedding_model _ _) as [em|e]; [|done]. cbn.
    destruct (Chroma_init_gets_or_creates disk VECTOR_DB_DIR em)
      as (disk' & -> & Hstored & _); [by rewrite Hd|].
    cbn. by exists disk'.
Qed.

End services.

(** C8, as stated, fails: with the embedding client in place, on a persist
    directory that holds a stray file and no collection, loading raises
    nothing and leaves a new, empty collection behind. *)
Lemma load_distinguishes_missing_fails :
  ¬ load_distinguishes_missing unit keyed_embeddings refuses_file.
Proof.
  intros [Hrejects _].
  destruct (Hrejects stray_disk VECTOR_DB_DIR (mkDir {[ "notes.txt" ]} ∅)
              eq_refl eq_refl) as [e He].
  discriminate He.
Qed.

Lemma load_creates_on_stray_disk :
  load_vectorstore unit keyed_embeddings refuses_file stray_disk VECTOR_DB_DIR
  = Ok (mkChroma VECTOR_DB_DIR "my_context_db", loaded_stray_disk)
  ∧ stored stray_disk VECTOR_DB_DIR "my_context_db" = None
  ∧ stored loaded_stray_disk VECTOR_DB_DIR "my_context_db" = Some [].
Proof. split_and!; reflexivity. Qed.

(** Without an API key nothing is opened, and a regular file at the persist
    path stops the application at the guard. *)
Lemma load_without_key :
  load_vectorstore unit keyless_embeddings refuses_file stray_disk
    VECTOR_DB_DIR = Raise ValidationError
  ∧ app_vectorstore unit keyed_embeddings refuses_file file_disk
    = Raise NotADirectoryError.
Proof. split; reflexivity. Qed.

End IndexFacts.

(** ** retriever.py *)

Module RetrieverFacts.

Import Index Retriever RetrieverSpec.

Section index.

Variable similarity_search : Chroma → string → Z → result (list Document).
Variable other_search : VectorStoreRetriever → string → result (list Document).


End index.


Lemma get_similarity_retriever_zero :
  get_similarity_retriever demo_vectorstore 0
  = Ok (mkRetriever demo_vectorstore "similarity" {[ "k" := 0%Z ]}).
Proof. reflexivity. Qed.

(** Over the demo index, which refuses a [k] below one as the Chroma index
    does, the retriever made with [k = 0] fails when used, with the index's
    exception, and the one made with [k = 2] returns two documents. *)
Lemma demo_retriever_on_use :
  invoke demo_similarity_search no_other_search
    (mkRetriever demo_vectorstore "similarity" {[ "k" := 0%Z ]})
    "what is alpha?" = Raise TypeError
  ∧ invoke demo_similarity_search no_other_search
      (mkRetriever demo_vectorstore "similarity" {[ "k" := 2%Z ]})
      "what is alpha?" = Ok (take 2 demo_index).
Proof. split; reflexivity. Qed.

End RetrieverFacts.

(** ** generator.py *)

Module GeneratorFacts.

Import Generator GeneratorSpec.

Lemma string_app_assoc (s1 s2 s3 : string) :
  (s1 +:+ s2) +:+ s3 = s1 +:+ s2 +:+ s3.
Proof.
  induction s1 as [|a s1 IH]; [done|].
  change (String a ((s1 +:+ s2) +:+ s3) = String a (s1 +:+ s2 +:+ s3)).
  by f_equal.
Qed.

Lemma join_cons_cons sep x y l :
  join sep (x :: y :: l) = x +:+ sep +:+ join sep (y :: l).
Proof. reflexivity. Qed.

(** Joining keeps the parts in order: the join of two non-empty runs is the
    join of the first, the separator, and the join of the second. *)
Lemma join_app sep l1 l2 :
  l1 ≠ [] → l2 ≠ [] →
  join sep (l1 ++ l2) = join sep l1 +:+ sep +:+ join sep l2.
Proof.
  intros H1 H2. induction l1 as [|x l1 IH]; [done|].
  destruct l1 as [|y l1].
  - destruct l2 as [|z l2]; [done|]. reflexivity.
  - change ((x :: y :: l1) ++ l2) with (x :: y :: (l1 ++ l2)).
    rewrite !join_cons_cons.
    change (y :: l1 ++ l2) with ((y :: l1) ++ l2).
    rewrite IH by done. by rewrite !string_app_assoc.
Qed.

Lemma occurs_in_prefix s t u : occurs_in s t → occurs_in s (t +:+ u).
Proof.
  intros (b & a & ->). exists b, (a +:+ u). by rewrite !string_app_assoc.
Qed.

Lemma occurs_in_suffix s t u : occurs_in s t → occurs_in s (u +:+ t).
Proof.
  intros (b & a & ->). exists (u +:+ b), a. by rewrite !string_app_assoc.
Qed.

Lemma occurs_in_join sep x l s :
  x ∈ l → occurs_in s x → occurs_in s (join sep l).
Proof.
  intros Hin Hx. induction l as [|y l IH]; [by apply elem_of_nil in Hin|].
  destruct l as [|z l].
  - apply list_elem_of_singleton in Hin as ->. exact Hx.
  - rewrite join_cons_cons. apply elem_of_cons in Hin as [->|Hin].
    + by apply occurs_in_prefix.
    + apply occurs_in_suffix, occurs_in_suffix. by apply IH.
Qed.

(** The context given to the two models shows the id of every retrieved
    document. *)
Lemma format_docs_with_metadata_shows_id docs d :
  d ∈ docs →
  occurs_in ("Context Article ID: " +:+ py_str_opt (metadata d !! "id"))
    (format_docs_with_metadata docs).
Proof.
  intros Hin. unfold format_docs_with_metadata.
  apply occurs_in_join with (format_doc_with_metadata d).
  - by apply list_elem_of_fmap_2.
  - unfold format_doc_with_metadata. exists "". eexists.
    cbn [String.append]. by rewrite !string_app_assoc.
Qed.

Section services.

Variable retriever : string → result (list Document).
Variable llm : string → result string.
Variable structured_llm : string → result QuotedCitations.

Abbreviation basic_chain := (make_basic_rag_chain retriever llm).
Abbreviation citations_chain :=
  (make_rag_with_citations_chain retriever llm structured_llm).

Lemma basic_chain_run question :
  basic_chain question =
  match retriever question with
  | Raise e => ([Retrieve question], Raise e)
  | Ok docs =>
      let prompt := rag_prompt_template question (format_docs docs) in
      ([Retrieve question; Generate prompt], llm prompt)
  end.
Proof.
  unfold make_basic_rag_chain, invoke_retriever, invoke_llm, mbind, G_bind,
    gbind.
  by destruct (retriever question).
Qed.

Lemma retrieve_stage_run question :
  retrieve_stage retriever question =
  match retriever question with
  | Raise e => ([Retrieve question], Raise e)
  | Ok docs => ([Retrieve question], Ok (retrieved question docs))
  end.
Proof.
  unfold retrieve_stage, invoke_retriever, mbind, G_bind, gbind.
  by destruct (retriever question).
Qed.

Lemma rag_response_chain_run fmt (d : gmap string value) docs question :
  d !! "context" = Some (VDocs docs) →
  d !! "question" = Some (VStr question) →
  rag_response_chain llm fmt d
  = ([Generate (rag_prompt_template question (fmt docs))],
     llm (rag_prompt_template question (fmt docs))).
Proof.
  intros Hc Hq.
  unfold rag_response_chain, itemgetter, invoke_llm, mbind, G_bind, gbind.
  rewrite Hc, Hq. cbn. by destruct (llm _).
Qed.

Lemma cite_response_chain_run (d : gmap string value) docs question answer :
  d !! "context" = Some (VDocs docs) →
  d !! "question" = Some (VStr question) →
  d !! "answer" = Some (VStr answer) →
  let prompt :=
    cite_prompt_template question (format_docs_with_metadata docs) answer in
  cite_response_chain structured_llm d
  = ([Extract prompt], structured_llm prompt).
Proof.
  intros Hc Hq Ha.
  unfold cite_response_chain, itemgetter, invoke_structured_llm, mbind,
    G_bind, gbind.
  rewrite Hc, Hq, Ha. cbn. by destruct (structured_llm _).
Qed.

(** [assign] changes no key but its own. *)
Lemma assign_frame key chain (d out : gmap string value) log :
  assign key chain d = (log, Ok out) →
  is_Some (out !! key) ∧ ∀ k, k ≠ key → out !! k = d !! k.
Proof.
  unfold assign, mbind, G_bind, gbind, mret, G_ret, gret.
  destruct (chain d) as [log' [v|e]]; [|done].
  intros [= <- <-]. split.
  - rewrite lookup_insert_eq. by eexists.
  - intros k Hk. by rewrite lookup_insert_ne.
Qed.

Lemma answer_stage_run question docs :
  let p1 := rag_prompt_template question (format_docs_with_metadata docs) in
  answer_stage llm (retrieved question docs) =
  ([Generate p1],
   match llm p1 with
   | Raise e => Raise e
   | Ok answer => Ok (<["answer" := VStr answer]> (retrieved question docs))
   end).
Proof.
  unfold answer_stage, assign, fmap, G_fmap.
  unfold mbind at 1. unfold G_bind, gbind at 1.
  unfold gbind at 1.
  rewrite (rag_response_chain_run _ _ docs question) by reflexivity.
  cbn. by destruct (llm _).
Qed.

Lemma citations_stage_run question docs answer :
  let before := <["answer" := VStr answer]> (retrieved question docs) in
  let p2 :=
    cite_prompt_template question (format_docs_with_metadata docs) answer in
  citations_stage structured_llm before =
  ([Extract p2],
   match structured_llm p2 with
   | Raise e => Raise e
   | Ok cited => Ok (<["citations" := VCited cited]> before)
   end).
Proof.
  unfold citations_stage, assign, fmap, G_fmap.
  unfold mbind at 1. unfold G_bind, gbind at 1.
  unfold gbind at 1.
  rewrite (cite_response_chain_run _ docs question answer) by reflexivity.
  cbn. by destruct (structured_llm _).
Qed.

(** One run of the with-citations chain, stage by stage. *)
Lemma citations_chain_run question :
  citations_chain question =
  match retriever question with
  | Raise e => ([Retrieve question], Raise e)
  | Ok docs =>
      let context := format_docs_with_metadata docs in
      let p1 := rag_prompt_template question context in
      match llm p1 with
      | Raise e => ([Retrieve question; Generate p1], Raise e)
      | Ok answer =>
          let p2 := cite_prompt_template question context answer in
          ([Retrieve question; Generate p1; Extract p2],
           match structured_llm p2 with
           | Raise e => Raise e
           | Ok cited =>
               Ok (<["citations" := VCited cited]>
                     (<["answer" := VStr answer]> (retrieved question docs)))
           end)
      end
  end.
Proof.
  unfold make_rag_with_citations_chain, mbind, G_bind.
  rewrite retrieve_stage_run.
  destruct (retriever question) as [docs|e]; [|done].
  unfold gbind at 2. rewrite answer_stage_run. cbn zeta.
  destruct (llm _) as [answer|e]; [|done].
  unfold gbind. rewrite citations_stage_run. cbn zeta.
  by destruct (structured_llm _).
Qed.

Lemma format_docs_in_order docs :
  format_docs docs = PlainSpec.contents_in_order docs.
Proof.
  unfold format_docs. induction docs as [|d docs IH]; [done|].
  destruct docs as [|d' docs]; [done|].
  rewrite !fmap_cons in *. rewrite join_cons_cons, IH. reflexivity.
Qed.

(** C7: in the answer-only chain, the prompt submitted to the model is the
    fixed instruction with the question and the context in it, where the
    context is the contents of the retrieved documents, in the order
    retrieved, one after the other with two newline characters between
    them; the chain makes the retrieval and that one generation call, and
    returns what the generation returns. *)
Theorem basic_chain_joins_context question docs :
  retriever question = Ok docs →
  let context := PlainSpec.contents_in_order docs in
  let prompt := PlainSpec.submitted_prompt question context in
  make_basic_rag_chain retriever llm question
  = ([Retrieve question; Generate prompt], llm prompt)
  ∧ (∀ text, llm prompt = Ok text →
             snd (make_basic_rag_chain retriever llm question) = Ok text)
  ∧ (docs = [] → context = "")
  ∧ (∀ d, docs = [d] → context = page_content d)
  ∧ (∀ d1 d2 rest,
       docs = d1 :: d2 :: rest →
       context
       = page_content d1
         +:+ String "010" (String "010"
               (PlainSpec.contents_in_order (d2 :: rest))))
  ∧ occurs_in question prompt
  ∧ occurs_in context prompt.
Proof.
  intros Hdocs context prompt.
  assert (make_basic_rag_chain retriever llm question
          = ([Retrieve question; Generate prompt], llm prompt)) as Hrun.
  { rewrite basic_chain_run, Hdocs. cbn zeta.
    by rewrite format_docs_in_order. }
  split_and!.
  - exact Hrun.
  - intros text Htext. by rewrite Hrun.
  - by intros ->.
  - by intros d ->.
  - by intros d1 d2 rest ->.
  - unfold prompt, PlainSpec.submitted_prompt.
    apply occurs_in_suffix. by exists "", ("

Context:
" +:+ context +:+ "

Answer:
").
  - unfold prompt, PlainSpec.submitted_prompt.
    do 3 apply occurs_in_suffix. by exists "", "

Answer:
".
Qed.

(** What a successful run of the with-citations chain consists of. *)
Lemma citations_chain_Ok question log out :
  citations_chain question = (log, Ok out) →
  ∃ docs answer cited,
    let context := format_docs_with_metadata docs in
    let p1 := rag_prompt_template question context in
    let p2 := cite_prompt_template question context answer in
    retriever question = Ok docs
    ∧ llm p1 = Ok answer
    ∧ structured_llm p2 = Ok cited
    ∧ log = [Retrieve question; Generate p1; Extract p2]
    ∧ out = <["citations" := VCited cited]>
              (<["answer" := VStr answer]> (retrieved question docs)).
Proof.
  rewrite citations_chain_run.
  destruct (retriever question) as [docs|e]; [|done]. cbn zeta.
  destruct (llm _) as [answer|e] eqn:Hllm; [|done].
  destruct (structured_llm _) as [cited|e] eqn:Hcite; [|done].
  intros [= <- <-]. by exists docs, answer, cited.
Qed.

(** C4: the state before the citation stage holds the context, the
    question and the answer and no citations; the stage returns that state
    with the citations key set, every other key as it was. *)
Theorem citations_stage_only_adds_citations question log out :
  citations_chain question = (log, Ok out) →
  ∃ log1 log2 before docs answer,
    retrieve_stage retriever question ≫= answer_stage llm
    = (log1, Ok before)
    ∧ citations_stage structured_llm before = (log2, Ok out)
    ∧ log = log1 ++ log2
    ∧ before !! "context" = Some (VDocs docs)
    ∧ before !! "question" = Some (VStr question)
    ∧ before !! "answer" = Some (VStr answer)
    ∧ before !! "citations" = None
    ∧ out !! "context" = Some (VDocs docs)
    ∧ out !! "question" = Some (VStr question)
    ∧ out !! "answer" = Some (VStr answer)
    ∧ is_Some (out !! "citations")
    ∧ ∀ k, k ≠ "citations" → out !! k = before !! k.
Proof.
  intros Hrun.
  destruct (citations_chain_Ok _ _ _ Hrun)
    as (docs & answer & cited & Hdocs & Hllm & Hcite & -> & ->).
  eexists [Retrieve question; Generate _], [Extract _],
    (<["answer" := VStr answer]> (retrieved question docs)), docs, answer.
  split_and!; try reflexivity.
  - unfold mbind, G_bind. rewrite retrieve_stage_run, Hdocs.
    unfold gbind. by rewrite answer_stage_run, Hllm.
  - by rewrite citations_stage_run, Hcite.
  - rewrite lookup_insert_eq. by eexists.
  - intros k Hk. by rewrite lookup_insert_ne.
Qed.

(** C1, as the code has it: the citations returned are the record the
    structured call returned, unchanged and unchecked; that call was made
    on the prompt built from the question, the retrieved context with the
    id of every document written in it, and the answer. *)
Theorem citations_are_the_structured_reply question log out :
  citations_chain question = (log, Ok out) →
  ∃ docs answer cited,
    let context := format_docs_with_metadata docs in
    retriever question = Ok docs
    ∧ out !! "context" = Some (VDocs docs)
    ∧ out !! "answer" = Some (VStr answer)
    ∧ structured_llm (cite_prompt_template question context answer)
      = Ok cited
    ∧ out !! "citations" = Some (VCited cited)
    ∧ Extract (cite_prompt_template question context answer) ∈ log
    ∧ ∀ d, d ∈ docs →
        occurs_in ("Context Article ID: " +:+ py_str_opt (metadata d !! "id"))
          context.
Proof.
  intros Hrun.
  destruct (citations_chain_Ok _ _ _ Hrun)
    as (docs & answer & cited & Hdocs & Hllm & Hcite & -> & ->).
  exists docs, answer, cited. split_and!; try done.
  - set_solver.
  - intros d Hd. by apply format_docs_with_metadata_shows_id.
Qed.

(** C3, as the code has it: when the structured call raises, for a reply
    that does not fit the schema or for any other reason, the chain raises
    the same exception after the three calls; the answer generated before
    is not returned. *)
Theorem citations_failure_propagates question docs answer e :
  retriever question = Ok docs →
  let context := format_docs_with_metadata docs in
  let p1 := rag_prompt_template question context in
  let p2 := cite_prompt_template question context answer in
  llm p1 = Ok answer →
  structured_llm p2 = Raise e →
  citations_chain question
  = ([Retrieve question; Generate p1; Extract p2], Raise e).
Proof.
  intros Hdocs context p1 p2 Hllm Hcite.
  rewrite citations_chain_run, Hdocs. cbn zeta.
  fold context p1. rewrite Hllm. fold p2. by rewrite Hcite.
Qed.

End services.

Lemma basic_chain_joins_context_witness :
  make_basic_rag_chain PlainSpec.three_retriever demo_llm demo_question
  = ([Retrieve demo_question;
      Generate
"You are an assistant who is an expert in question-answering tasks.
Answer the following question using only the retrieved context.
If the answer is not in the context, say that you don't know.
Keep the answer detailed and well formatted.

Question:
What is alpha?

Context:
Alpha is the first letter.

Beta is the second letter.

Gamma is the third letter.

Answer:
"],
     Ok "Alpha is the first letter.").
Proof.
  exact (proj1 (basic_chain_joins_context PlainSpec.three_retriever demo_llm
                  demo_question
                  [demo_chunk; MoreFixtures.second_chunk;
                   PlainSpec.third_chunk] eq_refl)).
Defined.

Lemma citations_stage_only_adds_citations_witness :
  demo_out demo_cited !! "context" = Some (VDocs [demo_chunk])
  ∧ demo_out demo_cited !! "question" = Some (VStr demo_question)
  ∧ demo_out demo_cited !! "answer" = Some (VStr demo_answer)
  ∧ is_Some (demo_out demo_cited !! "citations").
Proof.
  destruct (citations_stage_only_adds_citations demo_retriever demo_llm
              demo_structured_llm demo_question demo_log
              (demo_out demo_cited) eq_refl)
    as (log1 & log2 & before & docs & answer & Hbefore & _ & _ & Hctx & _
        & Hanswer & _ & Hctx' & Hquestion' & Hanswer' & Hcited & _).
  injection Hbefore as _ <-.
  injection Hctx as <-. injection Hanswer as <-.
  split_and!; done.
Defined.

(** C1, as stated, fails: the structured model cites the id c-9 while the
    only document of the context has the id c-1, and the chain returns that
    citation. *)
Lemma citations_within_context_fails :
  ¬ citations_within_context demo_retriever demo_llm stray_structured_llm.
Proof.
  intros Hclaim.
  destruct (Hclaim demo_question demo_log (demo_out stray_cited) stray_cited
              (mkCitation "c-9" "elsewhere.pdf" "elsewhere.pdf" 7 "Omega.")
              eq_refl eq_refl)
    as (docs & d & Hctx & Hd & Hid).
  - apply list_elem_of_singleton. reflexivity.
  - injection Hctx as <-. apply list_elem_of_singleton in Hd as ->.
    discriminate Hid.
Qed.

Lemma citations_are_the_structured_reply_witness :
  demo_out stray_cited !! "context" = Some (VDocs [demo_chunk])
  ∧ demo_out stray_cited !! "citations" = Some (VCited stray_cited).
Proof.
  destruct (citations_are_the_structured_reply demo_retriever demo_llm
              stray_structured_llm demo_question demo_log
              (demo_out stray_cited) eq_refl)
    as (docs & answer & cited & Hdocs & Hctx & _ & Hcited & Hout & _).
  injection Hdocs as <-. injection Hcited as <-.
  split; [exact Hctx | exact Hout].
Defined.

(** C3, as stated, fails: with a structured reply that does not fit the
    schema the chain returns nothing, neither the answer nor an empty list
    of citations. *)
Lemma invalid_citations_count_as_none_fails :
  ¬ invalid_citations_count_as_none demo_retriever demo_llm
      invalid_structured_llm.
Proof.
  intros Hclaim.
  destruct (Hclaim demo_question [demo_chunk] demo_answer
              eq_refl eq_refl eq_refl) as (log & out & Hrun & _).
  discriminate Hrun.
Qed.

Lemma citations_failure_propagates_witness :
  snd (make_rag_with_citations_chain demo_retriever demo_llm
         invalid_structured_llm demo_question)
  = Raise ValidationError.
Proof.
  exact (f_equal snd
           (citations_failure_propagates demo_retriever demo_llm
              invalid_structured_llm demo_question [demo_chunk]
              demo_answer ValidationError eq_refl eq_refl eq_refl)).
Defined.

End GeneratorFacts.

(** ** app.py: characters, streaming and previews *)

Module TextFacts.

Import GeneratorFacts App.

Example chars_ascii : chars "abc" = ["a"; "b"; "c"].
Proof. reflexivity. Qed.

(** "2–3" is three characters, the dash taking three bytes. *)
Example chars_dash : len "2–3" = 3 ∧ String.length "2–3" = 5.
Proof. split; reflexivity. Qed.

Lemma string_app_empty_r (s : string) : s +:+ "" = s.
Proof.
  induction s as [|a s IH]; [done|].
  change (String a (s +:+ "") = String a s). by f_equal.
Qed.

Lemma string_app_nonempty_l (s t : string) : s ≠ "" → s +:+ t ≠ "".
Proof. destruct s; [done|]. intros _. discriminate. Qed.

Lemma concat_chars_cons x l : concat_chars (x :: l) = x +:+ concat_chars l.
Proof.
  destruct l as [|y l]; [by rewrite string_app_empty_r|]. reflexivity.
Qed.

Lemma concat_chars_app l1 l2 :
  concat_chars (l1 ++ l2) = concat_chars l1 +:+ concat_chars l2.
Proof.
  induction l1 as [|x l1 IH]; [done|].
  change ((x :: l1) ++ l2) with (x :: (l1 ++ l2)).
  by rewrite !concat_chars_cons, IH, string_app_assoc.
Qed.

Lemma concat_chars_flush cur rest :
  concat_chars (flush cur rest) = cur +:+ concat_chars rest.
Proof.
  unfold flush. case_bool_decide as Hcur; [by subst|].
  apply concat_chars_cons.
Qed.

(** Cutting a text into characters loses nothing. *)
Lemma chars_go_concat pending cur s :
  concat_chars (chars_go pending cur s) = cur +:+ s.
Proof.
  revert pending cur. induction s as [|a r IH]; intros pending cur.
  - cbn [chars_go]. by rewrite concat_chars_flush.
  - destruct pending as [|k]; cbn [chars_go].
    + by rewrite concat_chars_flush, IH.
    + by rewrite IH, string_app_assoc.
Qed.

Lemma chars_concat text : concat_chars (chars text) = text.
Proof. apply chars_go_concat. Qed.

Lemma Forall_flush (P : string → Prop) cur rest :
  (cur ≠ "" → P cur) → Forall P rest → Forall P (flush cur rest).
Proof.
  intros Hcur Hrest. unfold flush. case_bool_decide; [done|].
  constructor; auto.
Qed.

(** No character is empty. *)
Lemma chars_go_nonempty pending cur s :
  Forall (λ ch, ch ≠ "") (chars_go pending cur s).
Proof.
  revert pending cur. induction s as [|a r IH]; intros pending cur.
  - cbn [chars_go]. by apply Forall_flush.
  - destruct pending as [|k]; cbn [chars_go]; [|apply IH].
    apply Forall_flush; [done | apply IH].
Qed.

Lemma concat_chars_nonempty l :
  l ≠ [] → Forall (λ ch, ch ≠ "") l → concat_chars l ≠ "".
Proof.
  destruct l as [|x l]; [done|]. intros _ Hall.
  rewrite concat_chars_cons. apply string_app_nonempty_l.
  by inversion Hall.
Qed.

Lemma chars_empty text : chars text = [] ↔ text = "".
Proof.
  split; [|by intros ->].
  intros Hnil. by rewrite <- (chars_concat text), Hnil.
Qed.

Lemma stream_go_length full_text rest :
  length (stream_go full_text rest) = length rest.
Proof.
  revert full_text. induction rest as [|ch rest IH]; intros full_text; cbn;
    [done|]. by rewrite IH.
Qed.

Lemma stream_go_lookup full_text rest i :
  i < length rest →
  stream_go full_text rest !! i
  = Some (full_text +:+ concat_chars (take (S i) rest)).
Proof.
  revert full_text i. induction rest as [|ch rest IH]; intros full_text i Hi;
    cbn in Hi; [lia|].
  destruct i as [|i]; cbn [stream_go lookup list_lookup].
  - reflexivity.
  - rewrite IH by lia. f_equal.
    change (take (S (S i)) (ch :: rest)) with (ch :: take (S i) rest).
    by rewrite (concat_chars_cons ch), string_app_assoc.
Qed.

(** X21: what [stream_text] shows. One text is put on screen per character of
    the answer; the i-th is made of the first [i + 1] characters, so each
    extends the one before by one character and the last one is the whole
    answer; for an empty answer nothing is shown. *)
Theorem stream_text_shows_prefixes text :
  length (stream_text text) = len text
  ∧ (∀ i, i < len text →
       stream_text text !! i
       = Some (concat_chars (take (S i) (chars text))))
  ∧ (text = "" → stream_text text = [])
  ∧ (text ≠ "" → last (stream_text text) = Some text).
Proof.
  unfold stream_text, len. split_and!.
  - apply stream_go_length.
  - intros i Hi. by rewrite stream_go_lookup.
  - by intros ->.
  - intros Htext.
    assert (length (chars text) ≠ 0) as Hlen.
    { intros Hlen. apply Htext, chars_empty. by apply nil_length_inv. }
    rewrite last_lookup, stream_go_length.
    rewrite stream_go_lookup by lia.
    replace (S (pred (length (chars text)))) with (length (chars text)) by lia.
    by rewrite firstn_all, chars_concat.
Qed.

(** X22: the preview of a source. A document of at most 1000 characters is
    shown whole, with no ellipsis; a longer one is cut: what is shown is a
    beginning of the document, a non-empty rest is left out, and three dots
    are added. *)
Theorem source_preview_cuts content :
  ((len content ≤ 1000)%nat → source_preview content = content)
  ∧ (1000 < len content →
       ∃ shown left_out,
         content = shown +:+ left_out
         ∧ left_out ≠ ""
         ∧ chars content = take 1000 (chars content) ++ drop 1000 (chars content)
         ∧ shown = concat_chars (take 1000 (chars content))
         ∧ source_preview content = shown +:+ "...").
Proof.
  unfold source_preview, len. split.
  - intros Hle. rewrite take_ge by done.
    destruct (Nat.ltb_spec 1000 (length (chars content))); [lia|].
    by rewrite chars_concat, string_app_empty_r.
  - intros Hlt.
    exists (concat_chars (take 1000 (chars content))),
           (concat_chars (drop 1000 (chars content))).
    split_and!.
    + by rewrite <- concat_chars_app, take_drop, chars_concat.
    + apply concat_chars_nonempty.
      * intros Hnil. apply (f_equal length) in Hnil.
        rewrite length_drop in Hnil. cbn in Hnil. lia.
      * apply Forall_drop, chars_go_nonempty.
    + by rewrite take_drop.
    + done.
    + by destruct (Nat.ltb_spec 1000 (length (chars content))); [|lia].
Qed.

End TextFacts.

(** ** generator.py: failures, empty retrievals and the formatters *)

Module GeneratorMoreFacts.

Import Generator GeneratorSpec GeneratorFacts MoreFixtures.

Lemma format_doc_with_metadata_parts d :
  format_doc_with_metadata d
  = ("Context Article ID: " +:+ py_str_opt (metadata d !! "id")) +:+ lf
    +:+ ("Context Article Source: " +:+ py_str_opt (metadata d !! "source"))
    +:+ lf
    +:+ ("Context Article Title: " +:+ py_str_opt (metadata d !! "title"))
    +:+ lf
    +:+ ("Context Article Page: " +:+ py_str_opt (metadata d !! "page"))
    +:+ lf +:+ lf +:+ "Content:" +:+ lf +:+ page_content d +:+ lf.
Proof.
  unfold format_doc_with_metadata. rewrite !string_app_assoc. reflexivity.
Qed.

Lemma occurs_in_refl s : occurs_in s s.
Proof.
  exists "", "". cbn [String.append].
  induction s as [|a s IH]; [done|].
  change (String a s = String a (s +:+ "")). by f_equal.
Qed.

Lemma occurs_in_here s u : occurs_in s (s +:+ u).
Proof. apply occurs_in_prefix, occurs_in_refl. Qed.

Section services.

Variable retriever : string → result (list Document).
Variable llm : string → result string.
Variable structured_llm : string → result QuotedCitations.

Abbreviation basic_chain := (make_basic_rag_chain retriever llm).
Abbreviation sources_chain := (make_rag_with_sources_chain retriever llm).
Abbreviation citations_chain :=
  (make_rag_with_citations_chain retriever llm structured_llm).

(** One run of the with-sources chain, stage by stage. *)
Lemma sources_chain_run question :
  sources_chain question =
  match retriever question with
  | Raise e => ([Retrieve question], Raise e)
  | Ok docs =>
      let prompt := rag_prompt_template question (format_docs docs) in
      ([Retrieve question; Generate prompt],
       match llm prompt with
       | Raise e => Raise e
       | Ok answer =>
           Ok (<["answer" := VStr answer]> (retrieved question docs))
       end)
  end.
Proof.
  unfold make_rag_with_sources_chain, mbind, G_bind.
  rewrite retrieve_stage_run.
  destruct (retriever question) as [docs|e]; [|done].
  unfold gbind at 1. unfold assign, fmap, G_fmap.
  unfold mbind at 1. unfold G_bind, gbind at 1. unfold gbind at 1.
  rewrite (rag_response_chain_run _ _ _ docs question) by reflexivity.
  cbn. by destruct (llm _).
Qed.

(** X9: a retrieval that fails ends each of the three chains with the
    retriever's exception, and no model is called. *)
Theorem retrieval_failure_stops_every_chain question e :
  retriever question = Raise e →
  make_basic_rag_chain retriever llm question
  = ([Retrieve question], Raise e)
  ∧ make_rag_with_sources_chain retriever llm question
    = ([Retrieve question], Raise e)
  ∧ make_rag_with_citations_chain retriever llm structured_llm question
    = ([Retrieve question], Raise e).
Proof.
  intros Hfail. rewrite basic_chain_run, sources_chain_run, citations_chain_run.
  by rewrite Hfail.
Qed.

(** X10: when the answer cannot be generated in the with-citations chain, the
    chain ends with the model's exception after the retrieval and that one
    generation call; no citation extraction is attempted. *)
Theorem generation_failure_skips_extraction question docs e :
  retriever question = Ok docs →
  llm (rag_prompt_template question (format_docs_with_metadata docs))
  = Raise e →
  citations_chain question
  = ([Retrieve question;
      Generate (rag_prompt_template question (format_docs_with_metadata docs))],
     Raise e)
  ∧ ∀ prompt, Extract prompt ∉ (citations_chain question).1.
Proof.
  intros Hdocs Hllm.
  assert (citations_chain question
          = ([Retrieve question;
              Generate (rag_prompt_template question
                          (format_docs_with_metadata docs))], Raise e)) as Hrun.
  { rewrite citations_chain_run, Hdocs. cbn zeta. by rewrite Hllm. }
  split; [exact Hrun|]. intros prompt. rewrite Hrun. cbn. intros Hin.
  repeat (apply elem_of_cons in Hin as [Hin|Hin]; [discriminate|]).
  by apply elem_of_nil in Hin.
Qed.

(** X11: the with-sources chain makes exactly the calls of the answer-only
    chain, on the same prompt; it fails when that chain fails, with the same
    exception, and otherwise returns its answer together with the documents
    retrieved and the question, under the three keys answer, context and
    question. *)
Theorem sources_chain_agrees_with_basic_chain question :
  (make_rag_with_sources_chain retriever llm question).1
  = (make_basic_rag_chain retriever llm question).1
  ∧ match (make_basic_rag_chain retriever llm question).2 with
    | Raise e =>
        (make_rag_with_sources_chain retriever llm question).2 = Raise e
    | Ok answer =>
        ∃ docs out,
          retriever question = Ok docs
          ∧ (make_rag_with_sources_chain retriever llm question).2 = Ok out
          ∧ out !! "answer" = Some (VStr answer)
          ∧ out !! "context" = Some (VDocs docs)
          ∧ out !! "question" = Some (VStr question)
          ∧ dom out = {[ "answer"; "context"; "question" ]}
    end.
Proof.
  rewrite sources_chain_run, basic_chain_run.
  destruct (retriever question) as [docs|e]; [|done]. cbn.
  split; [done|].
  destruct (llm _) as [answer|e]; [|done].
  eexists docs, _. split_and!; reflexivity.
Qed.

(** X12: a retrieval that finds nothing does not stop the chains: the model is
    still asked, with an empty context in the prompt. *)
Theorem empty_retrieval_still_asks_model question :
  retriever question = Ok [] →
  basic_chain question
  = ([Retrieve question; Generate (rag_prompt_template question "")],
     llm (rag_prompt_template question ""))
  ∧ (sources_chain question).1
    = [Retrieve question; Generate (rag_prompt_template question "")]
  ∧ ∃ rest,
      (citations_chain question).1
      = Retrieve question :: Generate (rag_prompt_template question "") :: rest.
Proof.
  intros Hnone.
  rewrite basic_chain_run, sources_chain_run, citations_chain_run, Hnone.
  cbn. split_and!; try done.
  destruct (llm _); by eexists.
Qed.

(** X13: a sub-chain run on a state that lacks a key it reads raises
    [KeyError] for that key and calls no model. *)
Theorem response_chains_need_their_keys (d : gmap string value) docs question :
  d !! "context" = Some (VDocs docs) →
  d !! "question" = Some (VStr question) →
  d !! "answer" = None →
  cite_response_chain structured_llm d = ([], Raise (KeyError "answer"))
  ∧ rag_response_chain llm format_docs (delete "context" d)
    = ([], Raise (KeyError "context")).
Proof.
  intros Hc Hq Ha. split.
  - unfold cite_response_chain, itemgetter, mbind, G_bind, gbind.
    by rewrite Hc, Hq, Ha.
  - unfold rag_response_chain, itemgetter, mbind, G_bind, gbind.
    by rewrite lookup_delete_eq.
Qed.

End services.

(** X14: both formatters keep the order of the documents: the context of two
    runs of documents put one after the other is the context of the first,
    the separator, and the context of the second. *)
Theorem formatters_keep_order docs1 docs2 :
  docs1 ≠ [] → docs2 ≠ [] →
  format_docs (docs1 ++ docs2)
  = format_docs docs1 +:+ sep2 +:+ format_docs docs2
  ∧ format_docs_with_metadata (docs1 ++ docs2)
    = format_docs_with_metadata docs1 +:+ docs_separator
      +:+ format_docs_with_metadata docs2.
Proof.
  intros H1 H2. unfold format_docs, format_docs_with_metadata.
  rewrite !fmap_app. split; apply join_app; by destruct docs1, docs2.
Qed.

(** X15: no retrieved document is left out of the context: its content occurs
    in what either formatter returns, and the metadata formatter also writes
    its four labelled lines, with [None] for a key the document lacks. *)
Theorem formatters_show_every_document docs d :
  d ∈ docs →
  occurs_in (page_content d) (format_docs docs)
  ∧ occurs_in (page_content d) (format_docs_with_metadata docs)
  ∧ occurs_in ("Context Article ID: " +:+ py_str_opt (metadata d !! "id"))
      (format_docs_with_metadata docs)
  ∧ occurs_in ("Context Article Source: " +:+ py_str_opt (metadata d !! "source"))
      (format_docs_with_metadata docs)
  ∧ occurs_in ("Context Article Title: " +:+ py_str_opt (metadata d !! "title"))
      (format_docs_with_metadata docs)
  ∧ occurs_in ("Context Article Page: " +:+ py_str_opt (metadata d !! "page"))
      (format_docs_with_metadata docs)
  ∧ (metadata d !! "id" = None →
       occurs_in "Context Article ID: None" (format_docs_with_metadata docs)).
Proof.
  intros Hin.
  assert (∀ s, occurs_in s (format_doc_with_metadata d) →
               occurs_in s (format_docs_with_metadata docs)) as Hlift.
  { intros s Hs. unfold format_docs_with_metadata.
    apply occurs_in_join with (format_doc_with_metadata d); [|done].
    by apply list_elem_of_fmap_2. }
  split_and!.
  - unfold format_docs. apply occurs_in_join with (page_content d);
      [by apply list_elem_of_fmap_2 | apply occurs_in_refl].
  - apply Hlift. rewrite format_doc_with_metadata_parts.
    do 11 apply occurs_in_suffix. apply occurs_in_here.
  - apply Hlift. rewrite format_doc_with_metadata_parts. apply occurs_in_here.
  - apply Hlift. rewrite format_doc_with_metadata_parts.
    do 2 apply occurs_in_suffix. apply occurs_in_here.
  - apply Hlift. rewrite format_doc_with_metadata_parts.
    do 4 apply occurs_in_suffix. apply occurs_in_here.
  - apply Hlift. rewrite format_doc_with_metadata_parts.
    do 6 apply occurs_in_suffix. apply occurs_in_here.
  - intros Hnone. apply Hlift. rewrite format_doc_with_metadata_parts, Hnone.
    apply occurs_in_here.
Qed.

End GeneratorMoreFacts.

(** ** app.py: the chat turn *)

Module AppFacts.

Import Index Retriever Generator GeneratorSpec GeneratorFacts App.

Section services.

Variable similarity_search : Chroma → string → Z → result (list Document).
Variable other_search : VectorStoreRetriever → string → result (list Document).
Variable llm : string → result string.
Variable structured_llm : string → result QuotedCitations.

Abbreviation run_chain := (run_chain llm structured_llm).
Abbreviation on_user_query :=
  (on_user_query similarity_search other_search llm structured_llm).

(** The retriever of a turn: the index search with the turn's top-K. *)
Lemma turn_retriever vs top_k :
  ∃ r, get_similarity_retriever vs top_k = Ok r
       ∧ ∀ query, invoke similarity_search other_search r query
                  = similarity_search vs query top_k.
Proof. eexists. split; reflexivity. Qed.

(** What [run_chain] returns, mode by mode. *)
Lemma run_chain_Ok mode retriever query reply answer :
  run_chain mode retriever query = Ok (reply, answer) →
  ∃ docs,
    retriever query = Ok docs
    ∧ if decide (mode = "Answer only") then
        reply = assistant_message answer
        ∧ llm (rag_prompt_template query (format_docs docs)) = Ok answer
      else if decide (mode = "Answer + sources") then
        reply = <["sources" := FDocs docs]> (assistant_message answer)
        ∧ llm (rag_prompt_template query (format_docs docs)) = Ok answer
      else
        ∃ cited,
          reply = <["citations" := FCitations (citations cited)]>
                    (assistant_message answer)
          ∧ llm (rag_prompt_template query (format_docs_with_metadata docs))
            = Ok answer
          ∧ structured_llm
              (cite_prompt_template query (format_docs_with_metadata docs)
                 answer) = Ok cited.
Proof.
  unfold App.run_chain.
  destruct (decide (mode = "Answer only")) as [->|Hbasic].
  - rewrite bool_decide_eq_true_2 by done. rewrite basic_chain_run.
    destruct (retriever query) as [docs|e]; [|done]. cbn.
    destruct (llm _) as [a|e] eqn:Hllm; [|done]. cbn.
    intros [= <- <-]. by exists docs.
  - rewrite bool_decide_eq_false_2 by done.
    destruct (decide (mode = "Answer + sources")) as [->|Hsources].
    + rewrite bool_decide_eq_true_2 by done.
      rewrite GeneratorMoreFacts.sources_chain_run.
      destruct (retriever query) as [docs|e]; [|done]. cbn.
      destruct (llm _) as [a|e] eqn:Hllm; [|done]. cbn.
      intros [= <- <-]. by exists docs.
    + rewrite bool_decide_eq_false_2 by done. rewrite citations_chain_run.
      destruct (retriever query) as [docs|e]; [|done]. cbn.
      destruct (llm _) as [a|e] eqn:Hllm; [|done]. cbn.
      destruct (structured_llm _) as [cited|e] eqn:Hcite; [|done]. cbn.
      intros [= <- <-]. exists docs. split; [done|]. by exists cited.
Qed.

Lemma run_chain_retrieval_fails mode retriever query e :
  retriever query = Raise e → run_chain mode retriever query = Raise e.
Proof.
  intros Hfail. unfold App.run_chain.
  rewrite basic_chain_run, GeneratorMoreFacts.sources_chain_run,
    citations_chain_run, Hfail.
  by repeat case_bool_decide.
Qed.

(** X18: what a turn does to the history, read off how the turn ended. The
    history is only ever appended to. Nothing is appended when nothing was
    asked, when the API key is missing or when there is no index (the key is
    checked first). When an exception leaves the turn, the user's message
    has been appended and no reply. When the answer was streamed, the user's
    message and one assistant message holding that answer were appended. *)
Theorem on_user_query_history mode api_key vectorstore top_k user_query messages :
  let '(messages', how) :=
    on_user_query mode api_key vectorstore top_k user_query messages in
  match how with
  | NoQuery =>
      messages' = messages ∧ (user_query = None ∨ user_query = Some "")
  | ErrorShown text =>
      messages' = messages
      ∧ (api_key = "" ∧ text = no_key_error
         ∨ api_key ≠ "" ∧ vectorstore = None ∧ text = no_index_error)
  | Failed e =>
      ∃ query, user_query = Some query ∧ query ≠ ""
               ∧ messages' = messages ++ [user_message query]
  | Answered answer =>
      ∃ query reply,
        user_query = Some query ∧ query ≠ ""
        ∧ messages' = messages ++ [user_message query; reply]
        ∧ reply !! "role" = Some (FStr "assistant")
        ∧ reply !! "content" = Some (FStr answer)
  end.
Proof.
  unfold App.on_user_query.
  destruct user_query as [query|]; [|by split; [|left]].
  case_bool_decide as Hquery; [subst; by split; [|right]|].
  case_bool_decide as Hkey; [by split; [|left]|].
  destruct vectorstore as [vs|]; [|split; [done|]; by right].
  destruct (get_similarity_retriever vs top_k) as [r|e]; [|by exists query].
  destruct (App.run_chain _ _ _ _ _) as [[reply answer]|e] eqn:Hrun;
    [|by exists query].
  exists query, reply. split_and!; try done.
  - by rewrite <- app_assoc.
  - apply run_chain_Ok in Hrun as (docs & _ & Hreply).
    destruct (decide (mode = "Answer only")); [by destruct Hreply as [-> _]|].
    destruct (decide (mode = "Answer + sources")).
    + destruct Hreply as [-> _]. by rewrite lookup_insert_ne.
    + destruct Hreply as (cited & -> & _). by rewrite lookup_insert_ne.
  - apply run_chain_Ok in Hrun as (docs & _ & Hreply).
    destruct (decide (mode = "Answer only")); [by destruct Hreply as [-> _]|].
    destruct (decide (mode = "Answer + sources")).
    + destruct Hreply as [-> _]. by rewrite lookup_insert_ne.
    + destruct Hreply as (cited & -> & _). by rewrite lookup_insert_ne.
Qed.

(** X19: what the reply of an answered turn holds. The documents are those
    the index search returned for the question and the turn's top-K. In the
    answer-only mode the reply has a role and a content and nothing else; in
    the sources mode it also has the documents under sources; in any other
    mode it has under citations the list the structured model returned, be
    it empty. *)
Theorem on_user_query_reply mode api_key vs top_k query messages messages' answer :
  on_user_query mode api_key (Some vs) top_k (Some query) messages
  = (messages', Answered answer) →
  ∃ docs reply,
    similarity_search vs query top_k = Ok docs
    ∧ messages' = messages ++ [user_message query; reply]
    ∧ if decide (mode = "Answer only") then
        reply = assistant_message answer
        ∧ dom reply = {[ "role"; "content" ]}
      else if decide (mode = "Answer + sources") then
        reply = <["sources" := FDocs docs]> (assistant_message answer)
        ∧ reply !! "citations" = None
      else
        ∃ cited,
          structured_llm
            (cite_prompt_template query (format_docs_with_metadata docs)
               answer) = Ok cited
          ∧ reply = <["citations" := FCitations (citations cited)]>
                      (assistant_message answer)
          ∧ reply !! "sources" = None.
Proof.
  unfold App.on_user_query.
  case_bool_decide; [done|]. case_bool_decide; [done|].
  destruct (turn_retriever vs top_k) as (r & -> & Hinvoke).
  destruct (App.run_chain _ _ _ _ _) as [[reply a]|e] eqn:Hrun; [|done].
  intros [= <- <-].
  apply run_chain_Ok in Hrun as (docs & Hdocs & Hreply).
  rewrite Hinvoke in Hdocs. exists docs, reply. split; [done|].
  split; [by rewrite <- app_assoc|].
  destruct (decide (mode = "Answer only")).
  { destruct Hreply as [-> _]. split; [done|].
    unfold assistant_message. rewrite dom_insert_L, dom_singleton_L.
    set_solver. }
  destruct (decide (mode = "Answer + sources")).
  { destruct Hreply as [-> _]. split; [done|]. reflexivity. }
  destruct Hreply as (cited & -> & _ & Hcite). exists cited.
  split; [done|]. split; [done|]. reflexivity.
Qed.

(** X20: when the index search fails, whatever the mode, the exception leaves
    the turn; the user's message is then in the history, with no reply after
    it. *)
Theorem on_user_query_search_fails mode api_key vs top_k query messages e :
  query ≠ "" → api_key ≠ "" →
  similarity_search vs query top_k = Raise e →
  on_user_query mode api_key (Some vs) top_k (Some query) messages
  = (messages ++ [user_message query], Failed e).
Proof.
  intros Hquery Hkey Hfail. unfold App.on_user_query.
  rewrite !bool_decide_eq_false_2 by done.
  destruct (turn_retriever vs top_k) as (r & -> & Hinvoke).
  rewrite (run_chain_retrieval_fails _ _ _ e); [done|].
  by rewrite Hinvoke.
Qed.

End services.

End AppFacts.

(** ** File names *)

Module PathFacts.

Import PathSpec.

Lemma split_slash_go_app cur s t :
  split_slash_go cur (s +:+ String "/" t)
  = split_slash_go cur s ++ split_slash_go "" t.
Proof.
  revert cur. induction s as [|c r IH]; intros cur; [done|].
  change (String c r +:+ String "/" t) with (String c (r +:+ String "/" t)).
  cbn [split_slash_go]. destruct (decide (c = "/"%char)).
  - by rewrite IH.
  - apply IH.
Qed.

Lemma split_slash_go_slash_free cur file :
  slash_free file = true →
  split_slash_go cur file = [String.rev_app cur file].
Proof.
  revert cur. induction file as [|c r IH]; intros cur Hfree; [done|].
  cbn in Hfree. apply andb_true_iff in Hfree as [Hc Hr].
  cbn [split_slash_go]. destruct (decide (c = "/"%char)) as [->|_];
    [done|]. by rewrite IH.
Qed.

Lemma slash_free_rev_app a b :
  slash_free a = true → slash_free b = true →
  slash_free (String.rev_app a b) = true.
Proof.
  revert b. induction a as [|c a IH]; intros b Ha Hb; [done|].
  cbn in Ha. apply andb_true_iff in Ha as [Hc Ha].
  cbn. apply IH; [done|]. cbn. by rewrite Hc.
Qed.

Lemma split_slash_go_parts_slash_free cur s :
  slash_free cur = true →
  Forall (λ part, slash_free part = true) (split_slash_go cur s).
Proof.
  revert cur. induction s as [|c r IH]; intros cur Hcur; cbn [split_slash_go].
  - constructor; [|done]. by apply slash_free_rev_app.
  - destruct (decide (c = "/"%char)) as [->|Hc].
    + constructor; [by apply slash_free_rev_app | by apply IH].
    + apply IH. cbn. rewrite Hcur.
      by rewrite bool_decide_eq_false_2.
Qed.

Lemma last_Forall {A} (P : A → Prop) (l : list A) d :
  Forall P l → P d → P (List.last l d).
Proof.
  intros Hall Hd. induction Hall as [|x l Hx Hall IH]; [done|].
  destruct l; [done|]. exact IH.
Qed.

Lemma Forall_filter_list {A} (P : A → Prop) f (l : list A) :
  Forall P l → Forall P (List.filter f l).
Proof.
  induction 1 as [|x l Hx Hall IH]; cbn; [done|].
  destruct (f x); [by constructor | done].
Qed.

(** X6: the name of a path is what follows its last slash: for a file name
    with no slash in it, other than the empty name and the dot, the name of
    [dir/file] is [file], whatever [dir] is, and so is the name of [file]
    alone. *)
Theorem path_name_is_last_component dir file :
  slash_free file = true → file ≠ "" → file ≠ "." →
  path_name (dir +:+ "/" +:+ file) = file ∧ path_name file = file.
Proof.
  intros Hfree Hne Hdot.
  assert (keep_part file = true) as Hkeep.
  { unfold keep_part. by rewrite !bool_decide_eq_false_2. }
  unfold path_name, path_parts, split_slash. split.
  - change ("/" +:+ file) with (String "/" file).
    rewrite split_slash_go_app, List.filter_app.
    rewrite (split_slash_go_slash_free "" file Hfree).
    change (String.rev_app "" file) with file. cbn [List.filter].
    rewrite Hkeep. apply List.last_last.
  - rewrite (split_slash_go_slash_free "" file Hfree).
    change (String.rev_app "" file) with file. cbn [List.filter].
    by rewrite Hkeep.
Qed.

(** X7: whatever the path, its name holds no slash. *)
Theorem path_name_slash_free s : slash_free (path_name s) = true.
Proof.
  unfold path_name, path_parts, split_slash.
  apply (last_Forall (λ part, slash_free part = true)); [|done].
  apply Forall_filter_list. by apply split_slash_go_parts_slash_free.
Qed.

Lemma path_name_is_last_component_witness :
  path_name ("/srv/app/uploaded_docs" +:+ "/" +:+ "paper.v2.pdf") = "paper.v2.pdf".
Proof.
  exact (proj1 (path_name_is_last_component "/srv/app/uploaded_docs"
                  "paper.v2.pdf" eq_refl ltac:(discriminate)
                  ltac:(discriminate))).
Defined.

End PathFacts.

(** ** loader.py: when a build returns *)

Module LoaderMoreFacts.

Import Loader LoaderSpec LoaderFacts PathSpec.

Lemma is_Raise_not_Ok {A} (r : result A) : is_Raise r ↔ ¬ is_Ok r.
Proof.
  destruct r as [a|e]; split.
  - intros [e' [=]].
  - intros Hno. destruct Hno. by exists a.
  - intros _ [a [=]].
  - intros _. by exists e.
Qed.

Section services.

Variable load_pdf : string → result (list Document).
Variable split_documents : Z → Z → list Document → result (list Document).
Variable context_llm : string → result string.
Variable uuid4 : nat → string.

Abbreviation generate := (generate_chunk_context context_llm).
Abbreviation create :=
  (create_contextual_chunks load_pdf split_documents context_llm uuid4).
Abbreviation build :=
  (for_file_paths load_pdf split_documents context_llm uuid4).

Abbreviation all_enrichable := (all_enrichable context_llm).

Lemma enriched_Forall fp text n ws ds :
  enriched context_llm uuid4 fp text n ws ds →
  Forall (λ w, is_Ok (generate text (page_content w))
               ∧ is_Ok (Path_name (get (metadata w) "source" (PyStr fp)))) ws.
Proof.
  induction 1 as [|n w ws ds title context Ht Hc _ IH]; constructor; [|done].
  split; by eexists.
Qed.

(** The success criterion of [create_contextual_chunks], at any state. *)
Lemma create_is_Ok_iff fp size overlap n :
  is_Ok (create fp size overlap n) ↔
  ∃ pages ws,
    load_pdf fp = Ok pages
    ∧ split_documents size overlap pages = Ok ws
    ∧ all_enrichable fp pages ws.
Proof.
  split.
  - intros [[chunks n'] Hrun].
    destruct (load_pdf fp) as [pages|e] eqn:Hload.
    + destruct (split_documents size overlap pages) as [ws|e] eqn:Hsplit.
      * exists pages, ws. split; [done|]. split; [done|].
        rewrite (create_unfold _ _ _ _ _ _ _ _ _ _ Hload Hsplit) in Hrun.
        apply for_chunks_Ok in Hrun as (_ & ds & Hds & _).
        by eapply enriched_Forall.
      * unfold create_contextual_chunks, mbind, M_bind, bind, lift in Hrun.
        by rewrite Hload, Hsplit in Hrun.
    + unfold create_contextual_chunks, mbind, M_bind, bind, lift in Hrun.
      by rewrite Hload in Hrun.
  - intros (pages & ws & Hload & Hsplit & Hall).
    rewrite (create_unfold _ _ _ _ _ _ _ _ _ _ Hload Hsplit).
    destruct (enriched_total context_llm uuid4 fp _ n ws Hall) as [ds Hds].
    eexists (ds, _). apply for_chunks_Ok. split; [done|]. by exists ds.
Qed.

(** X1: when [create_contextual_chunks] returns. It returns chunks exactly
    when the file loads, the splitter returns, and every window gets a
    context from the model and a title from its source; in every other case
    it raises. Whether it returns does not depend on the UUIDs drawn
    before. *)
Theorem create_contextual_chunks_returns_iff fp size overlap n :
  (is_Ok (create fp size overlap n) ↔
   ∃ pages ws,
     load_pdf fp = Ok pages
     ∧ split_documents size overlap pages = Ok ws
     ∧ all_enrichable fp pages ws)
  ∧ (is_Raise (create fp size overlap n) ↔ ¬ is_Ok (create fp size overlap n))
  ∧ ∀ m, is_Ok (create fp size overlap n) ↔ is_Ok (create fp size overlap m).
Proof.
  split; [apply create_is_Ok_iff|]. split; [apply is_Raise_not_Ok|].
  intros m. by rewrite !create_is_Ok_iff.
Qed.

(** X2: a file in which the splitter finds no window gives no chunk: the list
    returned is empty, no UUID is drawn. *)
Theorem create_contextual_chunks_no_window fp size overlap n pages :
  load_pdf fp = Ok pages →
  split_documents size overlap pages = Ok [] →
  create_contextual_chunks load_pdf split_documents context_llm uuid4
    fp size overlap n = Ok ([], n).
Proof.
  intros Hload Hsplit.
  by rewrite (create_unfold _ _ _ _ _ _ _ _ _ _ Hload Hsplit).
Qed.

Lemma build_cons fp fps acc n :
  build (fp :: fps) acc n =
  match create fp CHUNK_SIZE CHUNK_OVERLAP n with
  | Ok (docs, m) => build fps (acc ++ docs) m
  | Raise e => Raise e
  end.
Proof. reflexivity. Qed.

(** X4: how builds compose. Gathering the chunks of a list of files is
    gathering those of a first part and going on with the rest from there,
    and stops at the first failure; for one file it is that file's chunks at
    the default chunk size and overlap, after what was gathered before. *)
Theorem build_composes fps1 fps2 acc n :
  build (fps1 ++ fps2) acc n
  = match build fps1 acc n with
    | Ok (docs, m) => build fps2 docs m
    | Raise e => Raise e
    end
  ∧ ∀ fp,
      build [fp] acc n
      = match create fp CHUNK_SIZE CHUNK_OVERLAP n with
        | Ok (docs, m) => Ok (acc ++ docs, m)
        | Raise e => Raise e
        end.
Proof.
  split.
  - revert acc n. induction fps1 as [|fp fps1 IH]; intros acc n; [done|].
    change ((fp :: fps1) ++ fps2) with (fp :: (fps1 ++ fps2)).
    rewrite !build_cons.
    destruct (create fp CHUNK_SIZE CHUNK_OVERLAP n) as [[docs m]|e]; [|done].
    apply IH.
  - intros fp. rewrite build_cons.
    by destruct (create fp CHUNK_SIZE CHUNK_OVERLAP n) as [[docs m]|e].
Qed.

(** X5: one file that cannot be processed fails the whole build: if
    [create_contextual_chunks] raises on a file of the list, gathering
    raises, and no chunk of any file is returned. *)
Theorem build_aborts_on_any_file fps fp acc n :
  fp ∈ fps →
  is_Raise (create fp CHUNK_SIZE CHUNK_OVERLAP 0) →
  is_Raise (build fps acc n).
Proof.
  intros Hin Hfail. revert acc n.
  induction fps as [|fp' fps IH]; intros acc n; [by apply elem_of_nil in Hin|].
  rewrite build_cons.
  destruct (create fp' CHUNK_SIZE CHUNK_OVERLAP n) as [[docs m]|e] eqn:Hrun;
    [|by eexists].
  apply elem_of_cons in Hin as [->|Hin]; [|by apply IH].
  apply is_Raise_not_Ok in Hfail. destruct Hfail.
  apply (create_is_Ok_iff fp' CHUNK_SIZE CHUNK_OVERLAP 0).
  apply (create_is_Ok_iff fp' CHUNK_SIZE CHUNK_OVERLAP n). by eexists.
Qed.

End services.

End LoaderMoreFacts.

(** ** load_vectorstore, twice *)

Module IndexMoreFacts.

Import Index IndexSpec IndexFacts.

(** X16: loading is idempotent where it succeeds. When a load on a persist
    path that is no regular file returns, loading again from the disk it
    left returns the same handle and changes nothing more: the collection
    the first load found or created is found, with the same documents, not
    created again or emptied. *)
Theorem load_vectorstore_idempotent (Embeddings : Type)
    (OpenAIEmbeddings : string → result Embeddings)
    (Chroma_on_file : fs → string → string → result (Chroma * fs))
    (disk : fs) path vs disk' :
  disk !! path ≠ Some File →
  load_vectorstore Embeddings OpenAIEmbeddings Chroma_on_file disk path
  = Ok (vs, disk') →
  load_vectorstore Embeddings OpenAIEmbeddings Chroma_on_file disk' path
  = Ok (vs, disk')
  ∧ stored disk' path "my_context_db"
    = Some (default [] (stored disk path "my_context_db")).
Proof.
  intros Hfile. unfold load_vectorstore.
  destruct (get_embedding_model _ _) as [em|e]; [|done]. cbn.
  destruct (Chroma_init_gets_or_creates Embeddings Chroma_on_file disk path em
              Hfile) as (disk1 & -> & Hstored & _ & d' & Hd' & Hopened & Hc).
  intros [= <- <-]. split; [|done].
  unfold Chroma_init, dir_at. rewrite Hd'. cbn.
  destruct Hc as [docs Hdocs]. rewrite Hdocs, Hopened.
  do 2 f_equal. apply insert_id. rewrite Hd'. by destruct d'.
Qed.

Lemma load_vectorstore_idempotent_witness :
  load_vectorstore unit keyed_embeddings refuses_file loaded_stray_disk
    VECTOR_DB_DIR
  = Ok (mkChroma VECTOR_DB_DIR "my_context_db", loaded_stray_disk)
  ∧ stored loaded_stray_disk VECTOR_DB_DIR "my_context_db" = Some [].
Proof.
  exact (load_vectorstore_idempotent unit keyed_embeddings refuses_file
           stray_disk VECTOR_DB_DIR (mkChroma VECTOR_DB_DIR "my_context_db")
           loaded_stray_disk ltac:(discriminate) eq_refl).
Defined.

End IndexMoreFacts.

(** ** str.strip *)

Module StripFacts.

Import Loader GeneratorSpec GeneratorFacts TextFacts PathSpec.

(** Induction for the scans, which step over one, two or three bytes. *)
Lemma string_ind3 (P : string → Prop) :
  (∀ s,
     (∀ a r1, s = String a r1 → P r1) →
     (∀ a b r2, s = String a (String b r2) → P r2) →
     (∀ a b c r3, s = String a (String b (String c r3)) → P r3) →
     P s) →
  ∀ s, P s.
Proof.
  intros Hstep s.
  assert (P s
          ∧ (∀ a r1, s = String a r1 → P r1)
          ∧ (∀ a b r2, s = String a (String b r2) → P r2)) as [Hs _];
    [|done].
  induction s as [|x s (IH0 & IH1 & IH2)].
  - split; [|done]. apply Hstep; intros; discriminate.
  - assert (P (String x s)) as Hxs.
    { apply Hstep.
      - by intros a r1 [= _ <-].
      - intros a b r2 [= _ Hs]. by eapply IH1.
      - intros a b c r3 [= _ Hs]. by eapply IH2. }
    split; [exact Hxs|]. split.
    + by intros a r1 [= _ <-].
    + intros a b r2 [= _ Hs]. by eapply IH1.
Qed.

Lemma lstrip_is_scan s : lstrip s = lstrip_with is_ws2 is_ws3 s.
Proof.
  induction s as [s IH1 IH2 IH3] using string_ind3.
  destruct s as [|a r1]; [done|]. cbn [lstrip lstrip_with].
  destruct (is_ws1 a); [by apply (IH1 a r1)|].
  destruct r1 as [|b r2]; [done|].
  destruct (is_ws2 a b); [by apply (IH2 a b r2)|].
  destruct r2 as [|c r3]; [done|].
  destruct (is_ws3 a b c); [by apply (IH3 a b c r3) | done].
Qed.

Lemma lstrip_rev_is_scan s : lstrip_rev s = lstrip_with rev_ws2 rev_ws3 s.
Proof.
  induction s as [s IH1 IH2 IH3] using string_ind3.
  destruct s as [|a r1]; [done|]. cbn [lstrip_rev lstrip_with].
  destruct (is_ws1 a); [by apply (IH1 a r1)|].
  destruct r1 as [|b r2]; [done|]. unfold rev_ws2 at 1.
  destruct (is_ws2 b a); [by apply (IH2 a b r2)|].
  destruct r2 as [|c r3]; [done|]. unfold rev_ws3 at 1.
  destruct (is_ws3 c b a); [by apply (IH3 a b c r3) | done].
Qed.

Section scan.

Variable w2 : ascii → ascii → bool.
Variable w3 : ascii → ascii → ascii → bool.

Abbreviation scan := (lstrip_with w2 w3).
Abbreviation clean := (front_clean w2 w3).

(** The scan only removes from the front. *)
Lemma scan_suffix s : ∃ removed, s = removed +:+ scan s.
Proof.
  induction s as [s IH1 IH2 IH3] using string_ind3.
  destruct s as [|a r1]; [by exists ""|].
  cbn [lstrip_with]. destruct (is_ws1 a).
  { destruct (IH1 a r1 eq_refl) as [pre Hpre].
    exists (String a pre).
    change (String a r1 = String a (pre +:+ scan r1)). by f_equal. }
  destruct r1 as [|b r2]; [by exists ""|].
  destruct (w2 a b).
  { destruct (IH2 a b r2 eq_refl) as [pre Hpre].
    exists (String a (String b pre)).
    change (String a (String b r2) = String a (String b (pre +:+ scan r2))).
    by do 2 f_equal. }
  destruct r2 as [|c r3]; [by exists ""|].
  destruct (w3 a b c); [|by exists ""].
  destruct (IH3 a b c r3 eq_refl) as [pre Hpre].
  exists (String a (String b (String c pre))).
  change (String a (String b (String c r3))
          = String a (String b (String c (pre +:+ scan r3)))).
  by do 3 f_equal.
Qed.

(** What the scan returns starts with no space. *)
Lemma scan_clean s : clean (scan s) = true.
Proof.
  induction s as [s IH1 IH2 IH3] using string_ind3.
  destruct s as [|a r1]; [done|].
  cbn [lstrip_with]. destruct (is_ws1 a) eqn:H1; [by apply (IH1 a r1)|].
  destruct r1 as [|b r2]; [by cbn; rewrite H1|].
  destruct (w2 a b) eqn:H2; [by apply (IH2 a b r2)|].
  destruct r2 as [|c r3]; [by cbn; rewrite H1, H2|].
  destruct (w3 a b c) eqn:H3; [by apply (IH3 a b c r3)|].
  cbn. by rewrite H1, H2, H3.
Qed.

(** A text that starts with no space is left as it is. *)
Lemma scan_of_clean s : clean s = true → scan s = s.
Proof.
  destruct s as [|a [|b [|c r3]]]; cbn; try done.
  - by destruct (is_ws1 a).
  - destruct (is_ws1 a); [done|]. by destruct (w2 a b).
  - destruct (is_ws1 a); [done|]. destruct (w2 a b); [done|].
    by destruct (w3 a b c).
Qed.

(** A beginning of a text that starts with no space starts with none. *)
Lemma clean_prefix p q : clean (p +:+ q) = true → clean p = true.
Proof.
  destruct p as [|a [|b [|c r3]]]; [done| | |].
  - change (String a "" +:+ q) with (String a q). unfold front_clean.
    intros [Ha _]%andb_true_iff. by rewrite Ha.
  - change (String a (String b "") +:+ q) with (String a (String b q)).
    unfold front_clean.
    intros [Ha [Hb _]%andb_true_iff]%andb_true_iff. by rewrite Ha, Hb.
  - change (String a (String b (String c r3)) +:+ q)
      with (String a (String b (String c (r3 +:+ q)))).
    done.
Qed.

Lemma scan_idempotent s : scan (scan s) = scan s.
Proof. apply scan_of_clean, scan_clean. Qed.

End scan.

Lemma rev_app_rev_app a b c :
  String.rev_app (String.rev_app a b) c = String.rev_app b (a +:+ c).
Proof.
  revert b. induction a as [|x a IH]; intros b; [done|].
  cbn [String.rev_app]. by rewrite IH.
Qed.

Lemma rev_involutive s : String.rev (String.rev s) = s.
Proof.
  unfold String.rev. by rewrite rev_app_rev_app, string_app_empty_r.
Qed.

Lemma rev_app_app a b c :
  String.rev_app (a +:+ b) c = String.rev_app b (String.rev_app a c).
Proof.
  revert c. induction a as [|x a IH]; intros c; [done|].
  change (String x a +:+ b) with (String x (a +:+ b)).
  cbn [String.rev_app]. by rewrite IH.
Qed.

Lemma rev_app_acc a c : String.rev_app a c = String.rev a +:+ c.
Proof.
  unfold String.rev. revert c. induction a as [|x a IH]; intros c; [done|].
  cbn [String.rev_app]. rewrite (IH (String x c)), (IH (String x "")).
  by rewrite string_app_assoc.
Qed.

Lemma rev_app_distr a b :
  String.rev (a +:+ b) = String.rev b +:+ String.rev a.
Proof. unfold String.rev. by rewrite rev_app_app, (rev_app_acc b). Qed.

(** [rstrip] only removes from the end. *)
Lemma rstrip_prefix t : ∃ removed, t = rstrip t +:+ removed.
Proof.
  unfold rstrip. rewrite lstrip_rev_is_scan.
  destruct (scan_suffix rev_ws2 rev_ws3 (String.rev t)) as [pre Hpre].
  exists (String.rev pre).
  rewrite <- rev_app_distr, <- Hpre. by rewrite rev_involutive.
Qed.

Lemma rstrip_idempotent t : rstrip (rstrip t) = rstrip t.
Proof.
  unfold rstrip. rewrite rev_involutive, !lstrip_rev_is_scan.
  by rewrite scan_idempotent.
Qed.

(** Stripping removes at the two ends only, and a stripped text is left as
    it is by a second stripping. *)
Lemma strip_idempotent s : strip (strip s) = strip s.
Proof.
  unfold strip.
  assert (lstrip (rstrip (lstrip s)) = rstrip (lstrip s)) as ->.
  { rewrite (lstrip_is_scan (rstrip _)). apply scan_of_clean.
    destruct (rstrip_prefix (lstrip s)) as [post Hpost].
    apply clean_prefix with post. rewrite <- Hpost, lstrip_is_scan.
    apply scan_clean. }
  apply rstrip_idempotent.
Qed.

Lemma strip_occurs s : occurs_in (strip s) s.
Proof.
  unfold strip.
  destruct (scan_suffix is_ws2 is_ws3 s) as [pre Hpre].
  rewrite <- lstrip_is_scan in Hpre.
  destruct (rstrip_prefix (lstrip s)) as [post Hpost].
  exists pre, post. by rewrite <- Hpost.
Qed.

(** X8: the context [generate_chunk_context] returns is the model's reply
    with something removed at its two ends and nothing else: it occurs in
    the reply, and it is already stripped, so that stripping it once more
    changes nothing. A failed call is passed on as it is. *)
Theorem generate_chunk_context_strips context_llm document chunk :
  match context_llm (chunk_process_prompt document chunk) with
  | Raise e => generate_chunk_context context_llm document chunk = Raise e
  | Ok reply =>
      ∃ context,
        generate_chunk_context context_llm document chunk = Ok context
        ∧ occurs_in context reply
        ∧ strip context = context
        ∧ lstrip context = context
        ∧ rstrip context = context
  end.
Proof.
  unfold generate_chunk_context.
  destruct (context_llm _) as [reply|e]; [|done]. cbn.
  exists (strip reply). split; [done|]. split; [apply strip_occurs|].
  split; [apply strip_idempotent|]. unfold strip. split.
  - rewrite (lstrip_is_scan (rstrip _)). apply scan_of_clean.
    destruct (rstrip_prefix (lstrip reply)) as [post Hpost].
    apply clean_prefix with post. rewrite <- Hpost, lstrip_is_scan.
    apply scan_clean.
  - apply rstrip_idempotent.
Qed.

End StripFacts.

(** ** The facts above on the fixtures *)

Module MoreWitnesses.

Import Index Retriever Generator App.
Import Loader LoaderSpec LoaderFacts PathSpec LoaderMoreFacts.
Import RetrieverSpec GeneratorSpec GeneratorFacts MoreFixtures.
Import GeneratorMoreFacts AppFacts.

Lemma create_contextual_chunks_no_window_witness :
  create_contextual_chunks demo_load_pdf blank_split_documents
    failing_context_llm demo_uuid4 demo_source CHUNK_SIZE CHUNK_OVERLAP 5
  = Ok ([], 5).
Proof.
  exact (create_contextual_chunks_no_window demo_load_pdf
           blank_split_documents failing_context_llm demo_uuid4 demo_source
           CHUNK_SIZE CHUNK_OVERLAP 5 [demo_page] eq_refl eq_refl).
Defined.

Lemma build_aborts_on_any_file_witness :
  is_Raise (for_file_paths picky_load_pdf demo_split_documents
              demo_context_llm demo_uuid4 ["a.pdf"; "broken.pdf"; "c.pdf"]
              [] 0).
Proof.
  apply (build_aborts_on_any_file picky_load_pdf demo_split_documents
           demo_context_llm demo_uuid4 ["a.pdf"; "broken.pdf"; "c.pdf"]
           "broken.pdf" [] 0).
  - apply (list_elem_of_lookup_2 _ 1). reflexivity.
  - exists (ServiceError "pdf"). reflexivity.
Defined.

Lemma build_ids_distinct_witness :
  for_file_paths demo_load_pdf demo_split_documents demo_context_llm
    demo_uuid4 [demo_source; demo_source] [] 0 = Ok (demo_build, 4)
  ∧ NoDup (chunk_id <$> demo_build).
Proof.
  split; [reflexivity|].
  apply (build_ids_distinct demo_load_pdf demo_split_documents
           demo_context_llm demo_uuid4 [demo_source; demo_source] 0
           demo_build 4).
  - unfold demo_uuid4. apply pretty_nat_inj.
  - reflexivity.
Defined.

Lemma retrieval_failure_stops_every_chain_witness :
  make_basic_rag_chain failing_retriever demo_llm demo_question
  = ([Retrieve demo_question], Raise (ServiceError "index"))
  ∧ make_rag_with_sources_chain failing_retriever demo_llm demo_question
    = ([Retrieve demo_question], Raise (ServiceError "index"))
  ∧ make_rag_with_citations_chain failing_retriever demo_llm
      demo_structured_llm demo_question
    = ([Retrieve demo_question], Raise (ServiceError "index")).
Proof.
  exact (retrieval_failure_stops_every_chain failing_retriever demo_llm
           demo_structured_llm demo_question (ServiceError "index") eq_refl).
Defined.

Lemma generation_failure_skips_extraction_witness :
  make_rag_with_citations_chain demo_retriever failing_llm
    demo_structured_llm demo_question
  = ([Retrieve demo_question;
      Generate (rag_prompt_template demo_question
                  (format_docs_with_metadata [demo_chunk]))],
     Raise (ServiceError "chat")).
Proof.
  exact (proj1 (generation_failure_skips_extraction demo_retriever
                  failing_llm demo_structured_llm demo_question [demo_chunk]
                  (ServiceError "chat") eq_refl eq_refl)).
Defined.

Lemma empty_retrieval_still_asks_model_witness :
  make_basic_rag_chain empty_retriever demo_llm demo_question
  = ([Retrieve demo_question;
      Generate (rag_prompt_template demo_question "")],
     Ok demo_answer).
Proof.
  exact (proj1 (empty_retrieval_still_asks_model empty_retriever demo_llm
                  demo_structured_llm demo_question eq_refl)).
Defined.

Lemma response_chains_need_their_keys_witness :
  cite_response_chain demo_structured_llm unanswered_state
  = ([], Raise (KeyError "answer")).
Proof.
  exact (proj1 (response_chains_need_their_keys demo_llm demo_structured_llm
                  unanswered_state [second_chunk] "What is alpha?"
                  eq_refl eq_refl eq_refl)).
Defined.

Lemma formatters_keep_order_witness :
  format_docs [demo_chunk; second_chunk]
  = "Alpha is the first letter." +:+ sep2 +:+ "Beta is the second letter.".
Proof.
  exact (proj1 (formatters_keep_order [demo_chunk] [second_chunk]
                  ltac:(discriminate) ltac:(discriminate))).
Defined.

Lemma formatters_show_every_document_witness :
  occurs_in "Context Article ID: None"
    (format_docs_with_metadata [demo_chunk; second_chunk])
  ∧ occurs_in "Context Article Page: 3"
      (format_docs_with_metadata [demo_chunk; second_chunk]).
Proof.
  destruct (formatters_show_every_document [demo_chunk; second_chunk]
              second_chunk) as (_ & _ & _ & _ & _ & Hpage & Hnone).
  - apply (list_elem_of_lookup_2 _ 1). reflexivity.
  - split; [exact (Hnone eq_refl) | exact Hpage].
Defined.

Lemma on_user_query_reply_witness :
  ∃ reply,
    on_user_query demo_similarity_search no_other_search demo_llm
      demo_structured_llm "Answer + sources" "sk-test" (Some demo_vectorstore)
      2 (Some demo_question) []
    = ([user_message demo_question; reply], Answered demo_answer)
    ∧ reply = <["sources" := FDocs (take 2 demo_index)]>
                (assistant_message demo_answer)
    ∧ reply !! "citations" = None.
Proof.
  destruct (on_user_query_reply demo_similarity_search no_other_search
              demo_llm demo_structured_llm "Answer + sources" "sk-test"
              demo_vectorstore 2 demo_question []
              [user_message demo_question;
               <["sources" := FDocs (take 2 demo_index)]>
                 (assistant_message demo_answer)]
              demo_answer eq_refl)
    as (docs & reply & Hdocs & Hhistory & Hshape).
  destruct (decide ("Answer + sources" = "Answer only")) as [Heq|_];
    [discriminate Heq|].
  destruct (decide ("Answer + sources" = "Answer + sources")) as [_|Hne];
    [|by destruct Hne].
  destruct Hshape as [Hreply Hnone]. injection Hdocs as <-.
  exists reply. split; [by rewrite Hreply|]. split; [exact Hreply | exact Hnone].
Defined.

Lemma on_user_query_search_fails_witness :
  on_user_query failing_similarity_search no_other_search demo_llm
    demo_structured_llm "Answer + citations" "sk-test" (Some demo_vectorstore)
    5 (Some demo_question) []
  = ([user_message demo_question], Failed (ServiceError "index")).
Proof.
  exact (on_user_query_search_fails failing_similarity_search no_other_search
           demo_llm demo_structured_llm "Answer + citations" "sk-test"
           demo_vectorstore 5 demo_question [] (ServiceError "index")
           ltac:(discriminate) ltac:(discriminate) eq_refl).
Defined.

End MoreWitnesses.
